(** * Finance-analysis templates of the workspace packs

    A shallow embedding of the two report scripts

      - [workspace-packs/packs/finance-analysis-pack/templates/income_statement_generator.py]
      - [workspace-packs/packs/finance-analysis-pack/templates/variance_analysis_template.py]

    and the properties their specification states about them.

    The scripts are straight-line pandas programs.  A [DataFrame] is a finite
    map from column names to columns that share one index; [df['c'] = s] is a
    map insertion; [print] appends a line to the standard output, which is
    threaded through the rendering loops as state; a Python exception is an
    error of the [result] monad.

    Modelling choices.  The integer columns (Amount, Actual, Budget) are
    numpy [int64] columns: their entries are integers of 64 bits in two's
    complement, and sums and differences of them wrap around silently
    ([wrap64]).  A value read from a row of [iterrows] is a Python integer
    again, so that [abs] and the formats do not wrap.  The quotient column of
    the variance report is IEEE-754 binary64, with the operations of the
    standard library's executable specification of floating-point numbers
    ([SpecFloat]).  Strings are sequences of 8-bit characters and [len] is
    [String.length]: the labels of both scripts are ASCII.

    The tables of both scripts hold integer figures, and the embedding covers
    that case: a [ColInt] is an [int64] column, whose entries are within the
    range of an [int64] ([int64_amounts], [int64_figures]).  The sum of a
    float column, whose order of additions numpy does not fix, and a row read
    from a column of another dtype than the scripts' are outside it, and are
    reported as [Unsupported], which is not an exception of Python.  The
    messages of [TypeError] and [ValueError] are not modelled. *)

From stdpp Require Import gmap strings list fin_maps pretty.
From Stdlib Require Import ZArith Ascii Floats.SpecFloat.

#[local] Open Scope Z_scope.
#[local] Open Scope string_scope.

(* ===================================================================== *)
(** * Python: exceptions, strings, numbers and their formatting           *)
(* ===================================================================== *)

Module Py.

Inductive exn :=
| KeyError (key : string)
| TypeError
| ValueError
| Unsupported (what : string).

(** The outcome of evaluating an expression: a value or a raised exception. *)
Inductive result (A : Type) :=
| Return (a : A)
| Raise (e : exn).
Arguments Return {A} a.
Arguments Raise {A} e.

#[export] Instance result_ret : MRet result := @Return.
#[export] Instance result_bind : MBind result := fun A B f m =>
  match m with Return a => f a | Raise e => Raise e end.
#[export] Instance result_fmap : FMap result := fun A B f m =>
  match m with Return a => Return (f a) | Raise e => Raise e end.

(** [d[k]] for a dict. *)
Definition dict_get {V} (d : gmap string V) (k : string) : result V :=
  match d !! k with
  | Some v => Return v
  | None => Raise (KeyError k)
  end.

(** Standard output: the lines printed so far, oldest first. *)
Definition stdout := list string.

(** A statement with effects: it may print, and it ends normally or by
    raising; what it printed before stays printed either way. *)
Definition IO (A : Type) : Type := stdout -> result A * stdout.

#[export] Instance IO_ret : MRet IO := fun A a out => (Return a, out).
#[export] Instance IO_bind : MBind IO := fun A B f m out =>
  match m out with
  | (Return a, out') => f a out'
  | (Raise e, out') => (Raise e, out')
  end.

(** [print(s)] *)
Definition print (s : string) : IO unit := fun out => (Return tt, (out ++ [s])%list).

(** An expression evaluated inside a statement. *)
Definition lift {A} (r : result A) : IO A := fun out => (r, out).

(** [for x in xs: body(x)] *)
Fixpoint for_each {A} (xs : list A) (body : A -> IO unit) : IO unit :=
  match xs with
  | [] => mret tt
  | x :: xs' => _ ← body x; for_each xs' body
  end.

(** How a statement ends and the lines it prints, when run on an empty
    output. *)
Definition outcome {A} (m : IO A) : result A := fst (m []).
Definition printed {A} (m : IO A) : stdout := snd (m []).

(** The bytes a run leaves on standard output: every printed line followed by
    a newline. *)
Definition newline : string := String (Ascii.ascii_of_nat 10) EmptyString.
Definition bytes_of (out : stdout) : string :=
  foldr (fun line rest => line ++ newline ++ rest) "" out.

(** ** Strings *)

(** [s * n] *)
Fixpoint str_mul (s : string) (n : nat) : string :=
  match n with O => "" | S n' => s ++ str_mul s n' end.

(** [s.ljust(w)] and [s.rjust(w)]; also the format specs [:<w] and [:>w] of a
    string. *)
Definition ljust (w : nat) (s : string) : string :=
  s ++ str_mul " " (w - String.length s).
Definition rjust (w : nat) (s : string) : string :=
  str_mul " " (w - String.length s) ++ s.

(** ** Floating-point numbers: IEEE-754 binary64 *)

Definition float64 := spec_float.
Definition prec64 : Z := 53.
Definition emax64 : Z := 1024.

(** [float(z)]: the nearest binary64 number, ties to even. *)
Definition float_of_int (z : Z) : float64 := binary_normalize prec64 emax64 z 0 false.
Definition fdiv : float64 -> float64 -> float64 := SFdiv prec64 emax64.
Definition fmul : float64 -> float64 -> float64 := SFmul prec64 emax64.
Definition fsub : float64 -> float64 -> float64 := SFsub prec64 emax64.
Definition flt : float64 -> float64 -> bool := SFltb.

(** ** The format type [f] *)

(** [|m * 2^e| * 10^prec] rounded to the nearest integer, ties to even: the
    digits Python prints for a finite number at [prec] decimals. *)
Definition scaled_magnitude (prec : nat) (m : positive) (e : Z) : Z :=
  let num := Z.pos m * 10 ^ Z.of_nat prec in
  match e with
  | Zneg p =>
      let den := 2 ^ Z.pos p in
      let q := num / den in
      let r := num mod den in
      match 2 * r ?= den with
      | Lt => q
      | Gt => q + 1
      | Eq => if Z.even q then q else q + 1
      end
  | _ => num * 2 ^ e
  end.

(** The thousands separator of the [,] option, on the digits least
    significant first. *)
Fixpoint group3 (rev_digits : list ascii) : list ascii :=
  match rev_digits with
  | a :: b :: c :: rest =>
      match rest with
      | [] => [a; b; c]
      | _ => a :: b :: c :: ","%char :: group3 rest
      end
  | _ => rev_digits
  end.

Definition digits (n : Z) : string := pretty (Z.to_N n).

Definition grouped_digits (n : Z) : string :=
  String.string_of_list_ascii
    (rev (group3 (rev (String.list_ascii_of_string (digits n))))).

(** [n] written with exactly [w] digits (it has at most [w]). *)
Definition zero_padded (w : nat) (n : Z) : string :=
  str_mul "0" (w - String.length (digits n)) ++ digits n.

(** The digits of the scaled magnitude [n] with the decimal point put back. *)
Definition fixed_point (comma : bool) (prec : nat) (n : Z) : string :=
  let p := 10 ^ Z.of_nat prec in
  (if comma then grouped_digits (n / p) else digits (n / p))
  ++ match prec with
     | O => ""
     | _ => "." ++ zero_padded prec (n mod p)
     end.

Definition sign_str (s : bool) : string := if s then "-" else "".

(** [format(x, ',.<prec>f')] when [comma], [format(x, '.<prec>f')] otherwise. *)
Definition format_f (comma : bool) (prec : nat) (x : float64) : string :=
  match x with
  | S754_nan => "nan"
  | S754_infinity s => sign_str s ++ "inf"
  | S754_zero s => sign_str s ++ fixed_point comma prec 0
  | S754_finite s m e => sign_str s ++ fixed_point comma prec (scaled_magnitude prec m e)
  end.

(** The same format applied to an integer: Python converts it to a float
    first. *)
Definition format_int_f (comma : bool) (prec : nat) (z : Z) : string :=
  format_f comma prec (float_of_int z).

End Py.

Import Py.

(* ===================================================================== *)
(** * pandas: columns and frames                                          *)
(* ===================================================================== *)

Module Pandas.

(** ** numpy's 64-bit integers *)

Definition int64_min : Z := - 2 ^ 63.
Definition int64_max : Z := 2 ^ 63 - 1.

(** The integers an [int64] holds. *)
Definition in_int64 (z : Z) : Prop := int64_min <= z <= int64_max.

(** The value of 64 bits in two's complement that is congruent to [z]. *)
Definition wrap64 (z : Z) : Z := (z + 2 ^ 63) mod 2 ^ 64 - 2 ^ 63.

(** [a + b], [a - b] and [a * b] on [int64]: no overflow is reported. *)
Definition int64_add (a b : Z) : Z := wrap64 (a + b).
Definition int64_sub (a b : Z) : Z := wrap64 (a - b).
Definition int64_mul (a b : Z) : Z := wrap64 (a * b).

(** A column with its dtype: [object] (strings), [int64], [float64]. *)
Inductive Series :=
| ColStr (l : list string)
| ColInt (l : list Z)
| ColFloat (l : list float64).

Definition series_len (s : Series) : nat :=
  match s with
  | ColStr l => length l
  | ColInt l => length l
  | ColFloat l => length l
  end.

(** A frame: the length of its index and its columns by name.  Every column
    of a frame has the length of the index ([wf]). *)
Record DataFrame := mkDataFrame {
  nrows : nat;
  columns : gmap string Series
}.

Definition wf (df : DataFrame) : Prop :=
  forall c s, columns df !! c = Some s -> series_len s = nrows df.

(** [pd.DataFrame(data)] for a dict of columns, given as its items in
    order: the columns must all have one length (a later item of the same
    key replaces an earlier one, as in the dict). *)
Definition pd_DataFrame (data : list (string * Series)) : result DataFrame :=
  match data with
  | [] => Return (mkDataFrame 0 ∅)
  | (_, s) :: _ =>
      if forallb (fun kv => Nat.eqb (series_len kv.2) (series_len s)) data
      then Return (mkDataFrame (series_len s) (list_to_map (rev data)))
      else Raise ValueError
  end.

(** [df[c]] *)
Definition getitem (df : DataFrame) (c : string) : result Series :=
  match columns df !! c with
  | Some s => Return s
  | None => Raise (KeyError c)
  end.

(** [df[c] = s] *)
Definition setitem (df : DataFrame) (c : string) (s : Series) : result DataFrame :=
  if decide (series_len s = nrows df)
  then Return (mkDataFrame (nrows df) (<[c := s]> (columns df)))
  else Raise ValueError.

(** A column read at the dtype the scripts' tables have it at. *)
Definition get_str (df : DataFrame) (c : string) : result (list string) :=
  s ← getitem df c;
  match s with
  | ColStr l => Return l
  | _ => Raise (Unsupported c)
  end.

Definition get_int (df : DataFrame) (c : string) : result (list Z) :=
  s ← getitem df c;
  match s with
  | ColInt l => Return l
  | _ => Raise (Unsupported c)
  end.

Definition get_float (df : DataFrame) (c : string) : result (list float64) :=
  s ← getitem df c;
  match s with
  | ColFloat l => Return l
  | _ => Raise (Unsupported c)
  end.

(** A numeric column as floats, the conversion true division starts with. *)
Definition to_floats (s : Series) : result (list float64) :=
  match s with
  | ColInt l => Return (float_of_int <$> l)
  | ColFloat l => Return l
  | ColStr _ => Raise TypeError
  end.

(** [a - b], element by element; on two [int64] columns the difference wraps
    around. *)
Definition series_sub (a b : Series) : result Series :=
  match a, b with
  | ColInt x, ColInt y => Return (ColInt (zip_with int64_sub x y))
  | _, _ =>
      x ← to_floats a;
      y ← to_floats b;
      Return (ColFloat (zip_with fsub x y))
  end.

(** [a / b]: true division, always a float column.  A zero divisor raises
    nothing: the quotient is an infinity, or not-a-number for [0 / 0]. *)
Definition series_truediv (a b : Series) : result Series :=
  x ← to_floats a;
  y ← to_floats b;
  Return (ColFloat (zip_with fdiv x y)).

(** [a * k] for an integer constant [k]. *)
Definition series_mul (a : Series) (k : Z) : Series :=
  match a with
  | ColInt l => ColInt ((fun x => int64_mul x k) <$> l)
  | ColFloat l => ColFloat ((fun x => fmul x (float_of_int k)) <$> l)
  | ColStr l => ColStr ((fun s => str_mul s (Z.to_nat k)) <$> l)
  end.

(** [s.isin(values)] for a list of strings. *)
Definition isin (s : Series) (values : list string) : list bool :=
  match s with
  | ColStr l => (fun x => bool_decide (x ∈ values)) <$> l
  | ColInt l => (fun _ => false) <$> l
  | ColFloat l => (fun _ => false) <$> l
  end.

(** The entries of [l] at the positions where [mask] is true. *)
Fixpoint select {A} (mask : list bool) (l : list A) : list A :=
  match mask, l with
  | b :: mask', x :: l' => if b then x :: select mask' l' else select mask' l'
  | _, _ => []
  end.

Definition series_select (mask : list bool) (s : Series) : Series :=
  match s with
  | ColStr l => ColStr (select mask l)
  | ColInt l => ColInt (select mask l)
  | ColFloat l => ColFloat (select mask l)
  end.

(** [df[mask]]: the rows where the boolean mask is true, in every column. *)
Definition boolean_index (df : DataFrame) (mask : list bool) : result DataFrame :=
  if decide (length mask = nrows df)
  then Return (mkDataFrame (length (filter (fun b => b = true) mask))
                           (series_select mask <$> columns df))
  else Raise ValueError.

(** The sum of the entries of an [int64] column, accumulated in an [int64]:
    it wraps around; the sum of no entries is 0. *)
Definition int64_sum (l : list Z) : Z := foldl int64_add 0 l.

(** [s.sum()] of an integer column.  The sum of a column of another dtype is
    outside the embedding. *)
Definition series_sum (s : Series) : result Z :=
  match s with
  | ColInt l => Return (int64_sum l)
  | _ => Raise (Unsupported "sum")
  end.

End Pandas.

Import Pandas.

(* ===================================================================== *)
(** * income_statement_generator.py                                       *)
(* ===================================================================== *)

Module IncomeStatement.

(** One transaction, a row of the input table. *)
Record TransactionRow := mkTransaction {
  Account : string;
  SubAccount : string;
  Amount : Z;
  Period : string
}.

(** The input table as the script's [data] has it, column by column. *)
Definition data_of_rows (rows : list TransactionRow) : list (string * Series) :=
  [ ("Account", ColStr (Account <$> rows));
    ("Sub-Account", ColStr (SubAccount <$> rows));
    ("Amount", ColInt (Amount <$> rows));
    ("Period", ColStr (Period <$> rows)) ].

(** The amounts of a sequence of transactions make an [int64] column when
    each of them fits: this is the dtype [pd.DataFrame] gives a list of such
    integers. *)
Definition int64_amounts (rows : list TransactionRow) : Prop :=
  Forall (fun r => in_int64 (Amount r)) rows.

(** The frame [pd.DataFrame(data)] of a sequence of transactions. *)
Definition frame_of_rows (rows : list TransactionRow) : DataFrame :=
  mkDataFrame (length rows)
    (<["Period" := ColStr (Period <$> rows)]>
     (<["Amount" := ColInt (Amount <$> rows)]>
      (<["Sub-Account" := ColStr (SubAccount <$> rows)]>
       (<["Account" := ColStr (Account <$> rows)]> ∅)))).

(** 1. Setup Data: the sample of the script. *)
Definition data : list (string * Series) :=
  [ ("Account", ColStr ["Revenue"; "Revenue"; "COGS"; "COGS"; "OpEx"; "OpEx"; "OpEx"; "Tax"]);
    ("Sub-Account", ColStr ["Product Sales"; "Service Revenue"; "Material Cost"; "Labor Cost";
                            "Marketing"; "R&D"; "G&A"; "Income Tax"]);
    ("Amount", ColInt [500000; 120000; -200000; -80000; -45000; -60000; -30000; -40000]);
    ("Period", ColStr (replicate 8 "2023-Q1")) ].

Definition df : result DataFrame := pd_DataFrame data.

(** The same sample, row by row. *)
Definition sample_rows : list TransactionRow :=
  [ mkTransaction "Revenue" "Product Sales" 500000 "2023-Q1";
    mkTransaction "Revenue" "Service Revenue" 120000 "2023-Q1";
    mkTransaction "COGS" "Material Cost" (-200000) "2023-Q1";
    mkTransaction "COGS" "Labor Cost" (-80000) "2023-Q1";
    mkTransaction "OpEx" "Marketing" (-45000) "2023-Q1";
    mkTransaction "OpEx" "R&D" (-60000) "2023-Q1";
    mkTransaction "OpEx" "G&A" (-30000) "2023-Q1";
    mkTransaction "Tax" "Income Tax" (-40000) "2023-Q1" ].

(** 2. Define Structure *)
Definition structure : gmap string (list string) :=
  list_to_map
    [ ("Revenue", ["Product Sales"; "Service Revenue"]);
      ("Cost of Goods Sold", ["Material Cost"; "Labor Cost"]);
      ("Gross Profit", []);
      ("Operating Expenses", ["Marketing"; "R&D"; "G&A"]);
      ("Operating Income", []);
      ("Taxes", ["Income Tax"]);
      ("Net Income", []) ].

(** 3. Calculate Totals.  The totals are [int64] scalars, and so are the sums
    of two of them. *)
Definition get_total (df : DataFrame) (sub_accounts : list string) : result Z :=
  sub_account ← getitem df "Sub-Account";
  selected ← boolean_index df (isin sub_account sub_accounts);
  amount ← getitem selected "Amount";
  series_sum amount.

Record Totals := mkTotals {
  revenue : Z;
  cogs : Z;
  gross_profit : Z;
  opex : Z;
  operating_income : Z;
  taxes : Z;
  net_income : Z
}.

Definition calculate_totals (df : DataFrame) : result Totals :=
  revenue ← dict_get structure "Revenue" ≫= get_total df;
  cogs ← dict_get structure "Cost of Goods Sold" ≫= get_total df;
  let gross_profit := int64_add revenue cogs in
  opex ← dict_get structure "Operating Expenses" ≫= get_total df;
  let operating_income := int64_add gross_profit opex in
  taxes ← dict_get structure "Taxes" ≫= get_total df;
  let net_income := int64_add operating_income taxes in
  Return (mkTotals revenue cogs gross_profit opex operating_income taxes net_income).

(** 4. Create Statement DataFrame *)
Record StatementLine := mkLine {
  LineItem : string;   (* 'Line Item' *)
  LineAmount : Z;      (* 'Amount' *)
  LineType : string    (* 'Type' *)
}.

Definition statement_data (df : DataFrame) (t : Totals) : result (list StatementLine) :=
  product_sales ← get_total df ["Product Sales"];
  service_revenue ← get_total df ["Service Revenue"];
  Return
    [ mkLine "Revenue" (revenue t) "Header";
      mkLine "  Product Sales" product_sales "Detail";
      mkLine "  Service Revenue" service_revenue "Detail";
      mkLine "Cost of Goods Sold" (cogs t) "Header";
      mkLine "Gross Profit" (gross_profit t) "Total";
      mkLine "Operating Expenses" (opex t) "Header";
      mkLine "Operating Income" (operating_income t) "Total";
      mkLine "Net Income" (net_income t) "Grand Total" ].

(** Steps 3 and 4 together: the lines of the statement for the frame [df]. *)
Definition build (df : DataFrame) : result (list StatementLine) :=
  totals ← calculate_totals df;
  statement_data df totals.

(** [pd.DataFrame(statement_data)]: one column per key of the records. *)
Definition statement_df (lines : list StatementLine) : DataFrame :=
  mkDataFrame (length lines)
    (<["Type" := ColStr (LineType <$> lines)]>
     (<["Amount" := ColInt (LineAmount <$> lines)]>
      (<["Line Item" := ColStr (LineItem <$> lines)]> ∅))).

Fixpoint zip_lines (items : list string) (amounts : list Z) (types : list string)
    : list StatementLine :=
  match items, amounts, types with
  | item :: items', amount :: amounts', type :: types' =>
      mkLine item amount type :: zip_lines items' amounts' types'
  | _, _, _ => []
  end.

(** [statement_df.iterrows()], each row read at the three keys the loop
    uses. *)
Definition iterrows (sdf : DataFrame) : result (list StatementLine) :=
  items ← get_str sdf "Line Item";
  amounts ← get_int sdf "Amount";
  types ← get_str sdf "Type";
  Return (zip_lines items amounts types).

(** 5. Format and Export *)
Definition rule_width : nat := 40.
Definition label_width : nat := 25.
Definition amount_width : nat := 15.

Definition amount_str (row : StatementLine) : string :=
  let amount_str := "$" ++ format_int_f true 2 (Z.abs (LineAmount row)) in
  if (LineAmount row <? 0)%Z && bool_decide (LineType row ≠ "Total")
  then "($" ++ format_int_f true 2 (Z.abs (LineAmount row)) ++ ")"
  else amount_str.

Definition item_text (row : StatementLine) : string :=
  ljust label_width (LineItem row) ++ " " ++ rjust amount_width (amount_str row).

Definition print_row (row : StatementLine) : IO unit :=
  if bool_decide (LineType row = "Grand Total") then
    _ ← print (item_text row);
    print (str_mul "=" rule_width)
  else if bool_decide (LineType row = "Total") then
    _ ← print (item_text row);
    print (str_mul "-" rule_width)
  else
    print (item_text row).

(** The lines one iteration of the loop prints, as a list (see
    [print_row_prints]). *)
Definition row_lines (row : StatementLine) : list string :=
  item_text row ::
  (if bool_decide (LineType row = "Grand Total") then [str_mul "=" rule_width]
   else if bool_decide (LineType row = "Total") then [str_mul "-" rule_width]
   else []).

(** The script from step 3 on, for the frame [df]. *)
Definition main (df : DataFrame) : IO unit :=
  lines ← lift (build df);
  _ ← print "Income Statement (2023-Q1)";
  _ ← print (str_mul "-" rule_width);
  rows ← lift (iterrows (statement_df lines));
  for_each rows print_row.

(** ** Reading a statement *)

(** The run of Detail lines at the head of [lines]. *)
Fixpoint leading_details (lines : list StatementLine) : list StatementLine :=
  match lines with
  | l :: rest =>
      if bool_decide (LineType l = "Detail") then l :: leading_details rest else []
  | [] => []
  end.

(** The Detail lines nested under the Header line labelled [label]: those
    that follow it up to the next line of another kind. *)
Fixpoint details_under (label : string) (lines : list StatementLine) : list StatementLine :=
  match lines with
  | l :: rest =>
      if bool_decide (LineItem l = label /\ LineType l = "Header")
      then leading_details rest
      else details_under label rest
  | [] => []
  end.

End IncomeStatement.

(* ===================================================================== *)
(** * variance_analysis_template.py                                       *)
(* ===================================================================== *)

Module VarianceAnalysis.

(** One input row: a department with its actual and budgeted figure. *)
Record BudgetRow := mkBudgetRow {
  Department : string;
  Actual : Z;
  Budget : Z
}.

(** The figures of a sequence of input rows make two [int64] columns when
    each of them fits. *)
Definition int64_figures (rows : list BudgetRow) : Prop :=
  Forall (fun row => in_int64 (Actual row) /\ in_int64 (Budget row)) rows.

(** The frame [pd.DataFrame(data)] of a sequence of input rows. *)
Definition frame_of_rows (rows : list BudgetRow) : DataFrame :=
  mkDataFrame (length rows)
    (<["Budget" := ColInt (Budget <$> rows)]>
     (<["Actual" := ColInt (Actual <$> rows)]>
      (<["Department" := ColStr (Department <$> rows)]> ∅))).

(** 1. Setup Data: the sample of the script. *)
Definition data : list (string * Series) :=
  [ ("Department", ColStr ["Sales"; "Marketing"; "Engineering"; "HR"; "Finance"]);
    ("Actual", ColInt [120000; 45000; 150000; 20000; 25000]);
    ("Budget", ColInt [100000; 50000; 140000; 20000; 22000]) ].

Definition df : result DataFrame := pd_DataFrame data.

(** The same sample, row by row. *)
Definition sample_rows : list BudgetRow :=
  [ mkBudgetRow "Sales" 120000 100000;
    mkBudgetRow "Marketing" 45000 50000;
    mkBudgetRow "Engineering" 150000 140000;
    mkBudgetRow "HR" 20000 20000;
    mkBudgetRow "Finance" 25000 22000 ].

(** 3. Flag Significant Variances: the function applied to each percentage,
    [lambda x: 'Red' if x > 10 else ('Green' if x < -10 else 'Yellow')]. *)
Definition status_of (x : float64) : string :=
  if flt (float_of_int 10) x then "Red"
  else if flt x (float_of_int (-10)) then "Green"
  else "Yellow".

(** The same function on the entries of an integer column. *)
Definition status_of_int (x : Z) : string :=
  if (10 <? x)%Z then "Red"
  else if (x <? -10)%Z then "Green"
  else "Yellow".

(** [s.apply(lambda x: ...)] *)
Definition apply_status (s : Series) : result Series :=
  match s with
  | ColFloat l => Return (ColStr (status_of <$> l))
  | ColInt l => Return (ColStr (status_of_int <$> l))
  | ColStr _ => Raise TypeError
  end.

(** 2. Calculate Variance and 3. Flag Significant Variances: the three
    column assignments. *)
Definition calculate (df : DataFrame) : result DataFrame :=
  actual ← getitem df "Actual";
  budget ← getitem df "Budget";
  difference ← series_sub actual budget;
  df ← setitem df "Variance ($)" difference;
  variance ← getitem df "Variance ($)";
  budget ← getitem df "Budget";
  quotient ← series_truediv variance budget;
  df ← setitem df "Variance (%)" (series_mul quotient 100);
  percent ← getitem df "Variance (%)";
  flags ← apply_status percent;
  setitem df "Status" flags.

(** A row of the finished frame. *)
Record DepartmentVariance := mkVariance {
  department : string;          (* 'Department' *)
  actual : Z;                   (* 'Actual' *)
  budget : Z;                   (* 'Budget' *)
  varianceAbsolute : Z;         (* 'Variance ($)' *)
  variancePercent : float64;    (* 'Variance (%)' *)
  status : string               (* 'Status' *)
}.

Fixpoint zip_rows (ds : list string) (acts buds vars : list Z)
    (pcts : list float64) (sts : list string) : list DepartmentVariance :=
  match ds, acts, buds, vars, pcts, sts with
  | d :: ds', a :: acts', b :: buds', v :: vars', p :: pcts', s :: sts' =>
      mkVariance d a b v p s :: zip_rows ds' acts' buds' vars' pcts' sts'
  | _, _, _, _, _, _ => []
  end.

(** [df.iterrows()], each row read at the six keys the body of the loop
    uses.  A frame without rows yields no row, and no column of it is read. *)
Definition iterrows (df : DataFrame) : result (list DepartmentVariance) :=
  if decide (nrows df = 0%nat) then Return []
  else
    ds ← get_str df "Department";
    acts ← get_int df "Actual";
    buds ← get_int df "Budget";
    vars ← get_int df "Variance ($)";
    pcts ← get_float df "Variance (%)";
    sts ← get_str df "Status";
    Return (zip_rows ds acts buds vars pcts sts).

(** Steps 2 and 3 followed by the rows of the finished frame. *)
Definition analyze (df : DataFrame) : result (list DepartmentVariance) :=
  calculate df ≫= iterrows.

(** 4. Create Summary *)
Definition header : string :=
  ljust 15 "Department" ++ " " ++ rjust 10 "Actual" ++ " " ++ rjust 10 "Budget" ++ " "
  ++ rjust 10 "Var ($)" ++ " " ++ rjust 10 "Var (%)" ++ " " ++ rjust 8 "Status".

(** The two adjacent literals that open the argument of [print] are one
    string, so the first [rjust(10)] applies to the department and the
    actual figure together. *)
Definition row_text (row : DepartmentVariance) : string :=
  rjust 10 (ljust 15 (department row) ++ " " ++ "$" ++ format_int_f true 0 (actual row)) ++ " "
  ++ rjust 10 ("$" ++ format_int_f true 0 (budget row)) ++ " "
  ++ rjust 10 ("$" ++ format_int_f true 0 (varianceAbsolute row)) ++ " "
  ++ rjust 10 (format_f false 1 (variancePercent row) ++ "%") ++ " "
  ++ rjust 8 (status row).

(** The script from step 2 on, for the frame [df]. *)
Definition main (df : DataFrame) : IO unit :=
  df ← lift (calculate df);
  _ ← print "Variance Analysis Report";
  _ ← print (str_mul "=" 60);
  _ ← print header;
  _ ← print (str_mul "-" 60);
  rows ← lift (iterrows df);
  for_each rows (fun row => print (row_text row)).

End VarianceAnalysis.



(* ===================================================================== *)
(** * Formatting, by example                                              *)
(* ===================================================================== *)

(** Values of Python's [format], among them ties (rounded to even) and integers
    beyond 2^53 (rounded to the nearest binary64 number first). *)
Example format_examples :
  format_int_f true 2 500000 = "500,000.00"
  /\ format_int_f true 0 (-5000) = "-5,000"
  /\ format_int_f true 0 120000 = "120,000"
  /\ format_int_f true 2 1234567 = "1,234,567.00"
  /\ format_int_f true 2 0 = "0.00"
  /\ format_f false 1 (fmul (fdiv (float_of_int 10000) (float_of_int 140000)) (float_of_int 100))
     = "7.1"
  /\ format_f false 1 (fmul (fdiv (float_of_int 3000) (float_of_int 22000)) (float_of_int 100))
     = "13.6"
  /\ format_f false 1 (fmul (fdiv (float_of_int (-5000)) (float_of_int 50000)) (float_of_int 100))
     = "-10.0"
  /\ format_f false 1 (fdiv (float_of_int 1) (float_of_int 0)) = "inf"
  /\ format_f false 1 (fdiv (float_of_int 1) (float_of_int 4)) = "0.2"
  /\ format_f false 1 (fdiv (float_of_int 3) (float_of_int 4)) = "0.8"
  /\ format_f false 1 (fdiv (float_of_int (-1)) (float_of_int 40)) = "-0.0"
  /\ format_f false 1 (fdiv (float_of_int 1) (float_of_int 20)) = "0.1"
  /\ format_f false 1 (fdiv (float_of_int 3) (float_of_int 20)) = "0.1"
  /\ format_f false 1 (fdiv (float_of_int 7) (float_of_int 20)) = "0.3"
  /\ format_f true 0 (fdiv (float_of_int 5) (float_of_int 2)) = "2"
  /\ format_f true 0 (fdiv (float_of_int 7) (float_of_int 2)) = "4"
  /\ format_f true 0 (fdiv (float_of_int 1999999) (float_of_int 2)) = "1,000,000"
  /\ format_f true 2 (fdiv (float_of_int 12345678) (float_of_int 1000)) = "12,345.68"
  /\ format_int_f true 0 (2 ^ 53 + 1) = "9,007,199,254,740,992"
  /\ format_int_f true 2 123456789012345678 = "123,456,789,012,345,680.00"
  /\ format_int_f true 2 (10 ^ 21) = "1,000,000,000,000,000,000,000.00".
Proof. vm_compute. repeat split. Qed.

(* ===================================================================== *)
(** * 64-bit integers                                                     *)
(* ===================================================================== *)

Section Int64Facts.

Lemma wrap64_in_range (z : Z) : in_int64 z -> wrap64 z = z.
Proof.
  unfold in_int64, int64_min, int64_max, wrap64. intros Hz.
  rewrite Z.mod_small; lia.
Qed.

Lemma wrap64_range (z : Z) : in_int64 (wrap64 z).
Proof.
  unfold in_int64, int64_min, int64_max, wrap64.
  pose proof (Z.mod_pos_bound (z + 2 ^ 63) (2 ^ 64) ltac:(lia)). lia.
Qed.

(** [wrap64 z] is the one integer within the range that differs from [z] by a
    multiple of 2^64. *)
Lemma wrap64_congruent (z : Z) : exists k, wrap64 z = z + k * 2 ^ 64.
Proof.
  exists (- ((z + 2 ^ 63) / 2 ^ 64)). unfold wrap64.
  pose proof (Z.div_mod (z + 2 ^ 63) (2 ^ 64) ltac:(lia)). lia.
Qed.

Lemma wrap64_unique (z w k : Z) : in_int64 w -> w = z + k * 2 ^ 64 -> wrap64 z = w.
Proof.
  intros Hw ->. unfold in_int64, int64_min, int64_max, wrap64 in *.
  replace (z + 2 ^ 63) with (z + k * 2 ^ 64 + 2 ^ 63 + (- k) * 2 ^ 64) by lia.
  rewrite Z_mod_plus_full, Z.mod_small; lia.
Qed.

Lemma wrap64_add_l (a b : Z) : wrap64 (wrap64 a + b) = wrap64 (a + b).
Proof.
  unfold wrap64. f_equal.
  replace ((a + 2 ^ 63) mod 2 ^ 64 - 2 ^ 63 + b + 2 ^ 63)
    with ((a + 2 ^ 63) mod 2 ^ 64 + b) by lia.
  rewrite Z.add_mod_idemp_l by lia. f_equal. lia.
Qed.

Lemma wrap64_add_r (a b : Z) : wrap64 (a + wrap64 b) = wrap64 (a + b).
Proof. by rewrite Z.add_comm, wrap64_add_l, Z.add_comm. Qed.

Lemma wrap64_wrap64 (z : Z) : wrap64 (wrap64 z) = wrap64 z.
Proof. apply wrap64_in_range, wrap64_range. Qed.

(** A sum accumulated in 64 bits is the exact sum, wrapped once. *)
Lemma foldl_int64_add (c : Z) (l : list Z) :
  foldl int64_add (wrap64 c) l = wrap64 (c + foldr Z.add 0 l).
Proof.
  revert c. induction l as [| x l IH]; intros c; cbn [foldl foldr].
  - by rewrite Z.add_0_r.
  - unfold int64_add at 2. rewrite wrap64_add_l, IH. f_equal. lia.
Qed.

Lemma int64_sum_wraps (l : list Z) : int64_sum l = wrap64 (foldr Z.add 0 l).
Proof.
  unfold int64_sum.
  change (foldl int64_add 0 l) with (foldl int64_add (wrap64 0) l).
  by rewrite foldl_int64_add.
Qed.

Lemma int64_add_wraps (a b : Z) : int64_add (wrap64 a) (wrap64 b) = wrap64 (a + b).
Proof. unfold int64_add. by rewrite wrap64_add_l, wrap64_add_r. Qed.

Lemma int64_add_comm (a b : Z) : int64_add a b = int64_add b a.
Proof. unfold int64_add. by rewrite Z.add_comm. Qed.

End Int64Facts.

(** Equations between sums taken in 64 bits, decided as linear arithmetic
    with the quotients and the remainders of the divisions by 2^64. *)
Ltac int64_lia :=
  unfold int64_add, int64_sub, wrap64, in_int64, int64_min, int64_max in *;
  change (2 ^ 63) with 9223372036854775808 in *;
  change (2 ^ 64) with 18446744073709551616 in *;
  Z.div_mod_to_equations; lia.

(* ===================================================================== *)
(** * Running statements                                                  *)
(* ===================================================================== *)

Section IOFacts.

Lemma bind_lift {A B} (r : result A) (k : A -> IO B) (out : stdout) :
  (lift r ≫= k) out = match r with Return a => k a out | Raise e => (Raise e, out) end.
Proof. by destruct r. Qed.

Lemma bind_print {B} (s : string) (k : unit -> IO B) (out : stdout) :
  (print s ≫= k) out = k tt (out ++ [s])%list.
Proof. reflexivity. Qed.

(** A loop whose body only prints raises nothing, and prints the lines of its
    iterations one after the other. *)
Lemma for_each_prints {A} (body : A -> IO unit) (lines : A -> list string) (xs : list A) :
  (forall x out, body x out = (Return tt, out ++ lines x)%list) ->
  forall out, for_each xs body out = (Return tt, out ++ (xs ≫= lines))%list.
Proof.
  intros Hbody. induction xs as [| x xs IH]; intros out; cbn [for_each].
  - cbn. by rewrite app_nil_r.
  - change ((body x ≫= fun _ => for_each xs body) out)
      with (match body x out with
            | (Return a, out') => for_each xs body out'
            | (Raise e, out') => (Raise e, out')
            end).
    rewrite Hbody, IH. cbn [mbind list_bind]. by rewrite <- app_assoc.
Qed.

End IOFacts.

Import IncomeStatement.

(* ===================================================================== *)
(** * Properties of the income statement                                  *)
(* ===================================================================== *)

(** The sum of [Amount] over the rows whose Sub-Account is in a set: the
    exact sum, of integers of any size. *)
Abbreviation total_of rows sub_accounts :=
  (foldr Z.add 0 (Amount <$> filter (fun r => SubAccount r ∈ sub_accounts) rows)).

(** The same sum as an [int64] holds it. *)
Abbreviation total64 rows sub_accounts := (wrap64 (total_of rows sub_accounts)).

Section StatementFacts.

Implicit Types (rows : list TransactionRow) (df : DataFrame).
Implicit Types (sub_accounts : list string) (lines : list StatementLine).


(** The frame of a sequence of rows is what [pd.DataFrame] builds from its
    columns. *)
Lemma frame_of_rows_built rows :
  pd_DataFrame (data_of_rows rows) = Return (frame_of_rows rows).
Proof.
  unfold pd_DataFrame, data_of_rows.
  cbn [forallb snd series_len].
  rewrite !length_fmap, Nat.eqb_refl.
  reflexivity.
Qed.

Lemma frame_of_rows_wf rows : wf (frame_of_rows rows).
Proof.
  intros c s. unfold frame_of_rows; cbn [columns nrows].
  intros H.
  repeat (apply lookup_insert_Some in H as [[_ <-] | [_ H]];
          [ cbn; by rewrite length_fmap | ]).
  by rewrite lookup_empty in H.
Qed.

(** Selecting by the [isin] mask is filtering the rows. *)
Lemma select_isin_rows {A} (f : TransactionRow -> A) rows sub_accounts :
  select ((fun x => bool_decide (x ∈ sub_accounts)) <$> (SubAccount <$> rows)) (f <$> rows)
  = f <$> filter (fun r => SubAccount r ∈ sub_accounts) rows.
Proof.
  induction rows as [| r rows IH]; [done |].
  cbn [fmap list_fmap select]. rewrite filter_cons.
  destruct (decide (SubAccount r ∈ sub_accounts)) as [Hin | Hout].
  - rewrite (bool_decide_eq_true_2 _ Hin). cbn. by f_equal.
  - by rewrite (bool_decide_eq_false_2 _ Hout).
Qed.

(** [get_total] reads two columns and the length of the index, nothing
    else. *)
Lemma get_total_columns df subs amounts sub_accounts :
  columns df !! "Sub-Account" = Some (ColStr subs) ->
  columns df !! "Amount" = Some (ColInt amounts) ->
  length subs = nrows df ->
  get_total df sub_accounts
  = Return (int64_sum (select ((fun x => bool_decide (x ∈ sub_accounts)) <$> subs) amounts)).
Proof.
  intros Hsub Hamt Hlen. unfold get_total, getitem.
  rewrite Hsub. cbn [mbind result_bind isin].
  unfold boolean_index. rewrite length_fmap.
  rewrite decide_True by done. cbn [mbind result_bind columns].
  by rewrite lookup_fmap, Hamt.
Qed.

Lemma get_total_rows rows sub_accounts :
  get_total (frame_of_rows rows) sub_accounts = Return (total64 rows sub_accounts).
Proof.
  rewrite (get_total_columns _ (SubAccount <$> rows) (Amount <$> rows)).
  - by rewrite select_isin_rows, int64_sum_wraps.
  - reflexivity.
  - reflexivity.
  - cbn. by rewrite length_fmap.
Qed.

Lemma structure_items :
  structure !! "Revenue" = Some ["Product Sales"; "Service Revenue"]
  /\ structure !! "Cost of Goods Sold" = Some ["Material Cost"; "Labor Cost"]
  /\ structure !! "Operating Expenses" = Some ["Marketing"; "R&D"; "G&A"]
  /\ structure !! "Taxes" = Some ["Income Tax"].
Proof. repeat split. Qed.

Lemma calculate_totals_rows rows :
  let revenue := total64 rows ["Product Sales"; "Service Revenue"] in
  let cogs := total64 rows ["Material Cost"; "Labor Cost"] in
  let opex := total64 rows ["Marketing"; "R&D"; "G&A"] in
  let taxes := total64 rows ["Income Tax"] in
  let gross_profit := int64_add revenue cogs in
  let operating_income := int64_add gross_profit opex in
  calculate_totals (frame_of_rows rows)
  = Return (mkTotals revenue cogs gross_profit opex operating_income
                     taxes (int64_add operating_income taxes)).
Proof.
  intros. unfold calculate_totals, dict_get.
  destruct structure_items as (-> & -> & -> & ->).
  cbn [mbind result_bind]. rewrite !get_total_rows. reflexivity.
Qed.

Lemma build_rows rows :
  let revenue := total64 rows ["Product Sales"; "Service Revenue"] in
  let cogs := total64 rows ["Material Cost"; "Labor Cost"] in
  let opex := total64 rows ["Marketing"; "R&D"; "G&A"] in
  let taxes := total64 rows ["Income Tax"] in
  let gross_profit := int64_add revenue cogs in
  let operating_income := int64_add gross_profit opex in
  build (frame_of_rows rows)
  = Return
      [ mkLine "Revenue" revenue "Header";
        mkLine "  Product Sales" (total64 rows ["Product Sales"]) "Detail";
        mkLine "  Service Revenue" (total64 rows ["Service Revenue"]) "Detail";
        mkLine "Cost of Goods Sold" cogs "Header";
        mkLine "Gross Profit" gross_profit "Total";
        mkLine "Operating Expenses" opex "Header";
        mkLine "Operating Income" operating_income "Total";
        mkLine "Net Income" (int64_add operating_income taxes) "Grand Total" ].
Proof.
  intros. unfold build. rewrite calculate_totals_rows.
  cbn [mbind result_bind]. unfold statement_data.
  rewrite !get_total_rows. reflexivity.
Qed.

(** The sum over a set of two different Sub-Accounts splits into the sums
    over each. *)
Lemma total_of_two rows (a b : string) :
  a ≠ b -> total_of rows [a; b] = total_of rows [a] + total_of rows [b].
Proof.
  intros Hab. induction rows as [| r rows IH]; [done |].
  rewrite !filter_cons.
  repeat case_decide; cbn [fmap list_fmap foldr] in *;
    repeat match goal with
           | H : _ ∈ _ :: _ |- _ => apply elem_of_cons in H as [H | H]
           | H : _ ∈ [] |- _ => by apply elem_of_nil in H
           | H : _ ∉ _ :: _ |- _ => apply not_elem_of_cons in H as [? H]
           end;
    first [congruence | lia].
Qed.

(** The rows of the statement frame are the statement lines again. *)
Lemma iterrows_statement_df lines : iterrows (statement_df lines) = Return lines.
Proof.
  unfold iterrows, get_str, get_int, getitem, statement_df. cbn [columns].
  change ((_ : gmap string Series) !! "Line Item") with (Some (ColStr (LineItem <$> lines))).
  cbn [mbind result_bind].
  change ((_ : gmap string Series) !! "Amount") with (Some (ColInt (LineAmount <$> lines))).
  cbn [mbind result_bind].
  change ((_ : gmap string Series) !! "Type") with (Some (ColStr (LineType <$> lines))).
  cbn [mbind result_bind]. f_equal.
  induction lines as [| [item amount type] lines IH]; [done |].
  cbn. by f_equal.
Qed.

Lemma print_row_prints row out :
  print_row row out = (Return tt, out ++ row_lines row)%list.
Proof.
  unfold print_row, row_lines.
  repeat case_bool_decide; rewrite ?bind_print; unfold print;
    by rewrite <- ?app_assoc.
Qed.

Lemma main_prints df out :
  main df out
  = match build df with
    | Return lines =>
        (Return tt, out ++ "Income Statement (2023-Q1)" :: str_mul "-" rule_width
                            :: (lines ≫= row_lines))%list
    | Raise e => (Raise e, out)
    end.
Proof.
  unfold main. rewrite bind_lift. destruct (build df) as [lines | e]; [| done].
  rewrite !bind_print, bind_lift, iterrows_statement_df.
  rewrite (for_each_prints _ row_lines) by apply print_row_prints.
  by rewrite <- !app_assoc.
Qed.

End StatementFacts.

(** The sample frame of the script is the frame of its rows. *)
Example sample_frame :
  IncomeStatement.df = Return (frame_of_rows IncomeStatement.sample_rows).
Proof. reflexivity. Qed.

(** The expected figures of the sample data. *)
Example sample_totals :
  (IncomeStatement.df ≫= calculate_totals)
  = Return (mkTotals 620000 (-280000) 340000 (-135000) 205000 (-40000) 165000).
Proof. reflexivity. Qed.

(** Whether an integer fits an [int64], decided by evaluation. *)
Ltac fits_int64 := unfold in_int64, int64_min, int64_max; vm_compute; split; discriminate.

(** Whether the integers of a table all fit, row by row. *)
Ltac all_fit_int64 :=
  unfold IncomeStatement.int64_amounts, VarianceAnalysis.int64_figures;
  repeat (apply Forall_cons_2; [first [fits_int64 | split; fits_int64] |]);
  apply Forall_nil_2.

(** C1, counterexample.  Two sales of 2^62 each, which an [int64] column
    holds, add up to 2^63, which it does not hold: the Revenue total of the
    script is -2^63, not the sum of the amounts. *)
Lemma category_total_wraps_around :
  let rows := [ mkTransaction "Revenue" "Product Sales" (2 ^ 62) "2023-Q1";
                mkTransaction "Revenue" "Service Revenue" (2 ^ 62) "2023-Q1" ] in
  int64_amounts rows
  /\ total_of rows ["Product Sales"; "Service Revenue"] = 2 ^ 63
  /\ get_total (frame_of_rows rows) ["Product Sales"; "Service Revenue"] = Return (- 2 ^ 63)
  /\ revenue <$> calculate_totals (frame_of_rows rows) = Return (- 2 ^ 63)
  /\ ~ (forall rows sub_accounts,
          int64_amounts rows ->
          get_total (frame_of_rows rows) sub_accounts = Return (total_of rows sub_accounts)).
Proof.
  intros rows.
  assert (Hfit : int64_amounts rows) by all_fit_int64.
  assert (Hrun : get_total (frame_of_rows rows) ["Product Sales"; "Service Revenue"]
                 = Return (- 2 ^ 63)) by reflexivity.
  split; [exact Hfit |]. split; [reflexivity |]. split; [exact Hrun |].
  split; [reflexivity |].
  intros Hall. rewrite (Hall _ _ Hfit) in Hrun. discriminate Hrun.
Qed.

(** C1, amended.  For every sequence of transaction rows with integer
    amounts, held in an [int64] column, [get_total] is the sum of [Amount]
    over the rows whose Sub-Account is in the given set, as an [int64] holds
    it: reduced to 64 bits in two's complement, hence the sum itself when that
    is within the range, and 0 for the empty set.  Each
    category total of the script is that sum for the set [structure] gives the
    category, and Gross Profit = Revenue + COGS, Operating Income = Gross
    Profit + OpEx, Net Income = Operating Income + Taxes hold in 64-bit
    arithmetic; when the four sums and the three subtotals are within the range
    they hold exactly. *)
Theorem totals_are_category_sums (rows : list TransactionRow) :
  int64_amounts rows ->
  let df := frame_of_rows rows in
  let category label := default [] (structure !! label) in
  let R := total_of rows (category "Revenue") in
  let C := total_of rows (category "Cost of Goods Sold") in
  let O := total_of rows (category "Operating Expenses") in
  let T := total_of rows (category "Taxes") in
  (forall sub_accounts,
     get_total df sub_accounts = Return (wrap64 (total_of rows sub_accounts)))
  /\ (forall sub_accounts,
        in_int64 (total_of rows sub_accounts) ->
        get_total df sub_accounts = Return (total_of rows sub_accounts))
  /\ get_total df [] = Return 0
  /\ exists t,
       calculate_totals df = Return t
       /\ revenue t = wrap64 R
       /\ cogs t = wrap64 C
       /\ opex t = wrap64 O
       /\ taxes t = wrap64 T
       /\ gross_profit t = wrap64 (revenue t + cogs t)
       /\ operating_income t = wrap64 (gross_profit t + opex t)
       /\ net_income t = wrap64 (operating_income t + taxes t)
       /\ (in_int64 R -> in_int64 C -> in_int64 O -> in_int64 T ->
           in_int64 (R + C) -> in_int64 (R + C + O) -> in_int64 (R + C + O + T) ->
           revenue t = R /\ cogs t = C /\ opex t = O /\ taxes t = T
           /\ gross_profit t = revenue t + cogs t
           /\ operating_income t = gross_profit t + opex t
           /\ net_income t = operating_income t + taxes t).
Proof.
  intros _ df category R C O T. split; [| split; [| split]].
  - intros. apply get_total_rows.
  - intros sub_accounts Hfits. subst df. by rewrite get_total_rows, wrap64_in_range.
  - subst df. rewrite get_total_rows. f_equal.
    induction rows as [| r rows IH]; [done |].
    rewrite filter_cons, decide_False; [done | apply not_elem_of_nil].
  - eexists. split; [apply calculate_totals_rows |].
    cbn [revenue cogs opex taxes gross_profit operating_income net_income].
    do 7 (split; [reflexivity |]).
    change (total_of rows ["Product Sales"; "Service Revenue"]) with R.
    change (total_of rows ["Material Cost"; "Labor Cost"]) with C.
    change (total_of rows ["Marketing"; "R&D"; "G&A"]) with O.
    change (total_of rows ["Income Tax"]) with T.
    intros HR HC HO HT HRC HRCO HRCOT. unfold int64_add.
    rewrite (wrap64_in_range R), (wrap64_in_range C), (wrap64_in_range O),
      (wrap64_in_range T) by done.
    rewrite (wrap64_in_range (R + C)) by done.
    rewrite (wrap64_in_range (R + C + O)) by done.
    rewrite (wrap64_in_range (R + C + O + T)) by done.
    repeat split.
Qed.

(** On the sample data every sum is within the range, and the totals are the
    exact ones. *)
Lemma totals_are_category_sums_witness :
  get_total (frame_of_rows IncomeStatement.sample_rows) ["Marketing"; "R&D"; "G&A"]
  = Return (-135000)
  /\ exists t,
       calculate_totals (frame_of_rows IncomeStatement.sample_rows) = Return t
       /\ revenue t = 620000 /\ cogs t = -280000 /\ opex t = -135000 /\ taxes t = -40000
       /\ gross_profit t = revenue t + cogs t
       /\ operating_income t = gross_profit t + opex t
       /\ net_income t = operating_income t + taxes t.
Proof.
  destruct (totals_are_category_sums IncomeStatement.sample_rows)
    as (_ & Hexact & _ & t & Hrun & _ & _ & _ & _ & _ & _ & _ & Hfits);
    [all_fit_int64 |].
  split.
  - apply (Hexact ["Marketing"; "R&D"; "G&A"]). fits_int64.
  - exists t. split; [exact Hrun |].
    apply Hfits; fits_int64.
Defined.

(** C4 (the code departs from the claim).  The sample input has a Tax row, and
    the statement built from it has no Taxes line: Net Income follows
    Operating Income directly. *)
Theorem sample_statement_has_no_taxes_line :
  IncomeStatement.df = Return (frame_of_rows IncomeStatement.sample_rows)
  /\ mkTransaction "Tax" "Income Tax" (-40000) "2023-Q1" ∈ IncomeStatement.sample_rows
  /\ build (frame_of_rows IncomeStatement.sample_rows)
     = Return
         [ mkLine "Revenue" 620000 "Header";
           mkLine "  Product Sales" 500000 "Detail";
           mkLine "  Service Revenue" 120000 "Detail";
           mkLine "Cost of Goods Sold" (-280000) "Header";
           mkLine "Gross Profit" 340000 "Total";
           mkLine "Operating Expenses" (-135000) "Header";
           mkLine "Operating Income" 205000 "Total";
           mkLine "Net Income" 165000 "Grand Total" ].
Proof.
  split; [reflexivity |]. split; [| reflexivity].
  do 7 apply list_elem_of_further. apply list_elem_of_here.
Qed.

(** For every input the statement has the same eight lines, none of them for
    Taxes, whatever the Tax rows. *)
Lemma statement_layout (rows : list TransactionRow) :
  exists lines,
    build (frame_of_rows rows) = Return lines
    /\ (fun l => (LineItem l, LineType l)) <$> lines
       = [ ("Revenue", "Header");
           ("  Product Sales", "Detail");
           ("  Service Revenue", "Detail");
           ("Cost of Goods Sold", "Header");
           ("Gross Profit", "Total");
           ("Operating Expenses", "Header");
           ("Operating Income", "Total");
           ("Net Income", "Grand Total") ].
Proof. eexists. split; [apply build_rows | reflexivity]. Qed.

(** C5.  The rendered statement is its title, a rule of 40 dashes, and for
    every line, in order, what the format loop prints for it: the label padded
    to 25 columns, a blank and the amount right-aligned in 15 columns.  A
    negative amount of a Header, Detail or Grand Total line is printed as its
    magnitude in parentheses; a negative amount of a Total line as its magnitude
    without parentheses (and without a sign).  A Total line is followed by a
    rule of dashes and the Grand Total line by a rule of equals signs, both 40
    wide: the width of the two columns, 25 + 15 (the blank between them not
    counted), and of the rule under the title. *)
Theorem format_loop_parentheses_and_rules (df : DataFrame) (out : stdout) :
  let magnitude row := format_int_f true 2 (Z.abs (LineAmount row)) in
  let dashes := str_mul "-" rule_width in
  let equals := str_mul "=" rule_width in
  main df out
  = match build df with
    | Return lines =>
        (Return tt, out ++ "Income Statement (2023-Q1)" :: dashes :: (lines ≫= row_lines))%list
    | Raise e => (Raise e, out)
    end
  /\ (forall lines printed_before,
        for_each lines print_row printed_before
        = (Return tt, printed_before ++ (lines ≫= row_lines))%list)
  /\ (forall row,
        (exists rule,
           row_lines row
           = (ljust 25 (LineItem row) ++ " " ++ rjust 15 (amount_str row)) :: rule
           /\ (LineType row = "Total" -> rule = [dashes])
           /\ (LineType row = "Grand Total" -> rule = [equals])
           /\ (LineType row = "Header" \/ LineType row = "Detail" -> rule = []))
        /\ (LineAmount row < 0 ->
            LineType row = "Header" \/ LineType row = "Detail" \/ LineType row = "Grand Total" ->
            amount_str row = "($" ++ magnitude row ++ ")")
        /\ (LineAmount row < 0 -> LineType row = "Total" ->
            amount_str row = "$" ++ magnitude row)
        /\ (0 <= LineAmount row -> amount_str row = "$" ++ magnitude row))
  /\ dashes = "----------------------------------------"
  /\ equals = "========================================"
  /\ String.length dashes = (label_width + amount_width)%nat
  /\ String.length equals = (label_width + amount_width)%nat.
Proof.
  intros magnitude dashes equals.
  split; [apply main_prints |].
  split; [intros; apply (for_each_prints _ row_lines), print_row_prints |].
  split; [| by repeat split].
  intros row. split; [| split; [| split]].
  - exists (tail (row_lines row)). split; [reflexivity |].
    unfold row_lines. cbn [tail].
    split; [| split].
    + intros ->. reflexivity.
    + intros ->. reflexivity.
    + intros [-> | ->]; reflexivity.
  - intros Hneg Hkind. unfold amount_str.
    apply Z.ltb_lt in Hneg. rewrite Hneg.
    rewrite bool_decide_eq_true_2; [done |].
    destruct Hkind as [-> | [-> | ->]]; done.
  - intros Hneg Htotal. unfold amount_str.
    rewrite bool_decide_eq_false_2 by (by intros []).
    by rewrite andb_false_r.
  - intros Hpos. unfold amount_str.
    apply Z.ltb_ge in Hpos. by rewrite Hpos.
Qed.

(** A year with a gross loss and a net loss. *)
Lemma format_loop_parentheses_and_rules_witness :
  let rows := [ mkTransaction "Revenue" "Product Sales" 1000 "2023-Q1";
                mkTransaction "COGS" "Material Cost" (-2500) "2023-Q1";
                mkTransaction "OpEx" "Marketing" (-1234567) "2023-Q1" ] in
  printed (main (frame_of_rows rows))
  = [ "Income Statement (2023-Q1)";
      "----------------------------------------";
      "Revenue                         $1,000.00";
      "  Product Sales                 $1,000.00";
      "  Service Revenue                   $0.00";
      "Cost of Goods Sold            ($2,500.00)";
      "Gross Profit                    $1,500.00";
      "----------------------------------------";
      "Operating Expenses        ($1,234,567.00)";
      "Operating Income            $1,236,067.00";
      "----------------------------------------";
      "Net Income                ($1,236,067.00)";
      "========================================" ]
  /\ amount_str (mkLine "Net Income" (-1236067) "Grand Total") = "($1,236,067.00)"
  /\ amount_str (mkLine "Gross Profit" (-1500) "Total") = "$1,500.00".
Proof.
  intros rows.
  destruct (format_loop_parentheses_and_rules (frame_of_rows rows) [])
    as (Hmain & _ & Hrow & _).
  split; [unfold printed; rewrite Hmain; reflexivity |].
  split.
  - destruct (Hrow (mkLine "Net Income" (-1236067) "Grand Total")) as (_ & Hparen & _).
    rewrite Hparen; [reflexivity | reflexivity | right; right; reflexivity].
  - destruct (Hrow (mkLine "Gross Profit" (-1500) "Total")) as (_ & _ & Hplain & _).
    rewrite Hplain; reflexivity.
Defined.

(** C7, counterexample.  With two sales of 2^62 each the Revenue header
    stands for -2^63 above two Detail lines of 2^62: the amounts of the Detail
    lines under the header sum to 2^63, not to the header's amount. *)
Lemma revenue_details_exceed_their_header :
  let rows := [ mkTransaction "Revenue" "Product Sales" (2 ^ 62) "2023-Q1";
                mkTransaction "Revenue" "Service Revenue" (2 ^ 62) "2023-Q1" ] in
  int64_amounts rows
  /\ exists lines,
    build (frame_of_rows rows) = Return lines
    /\ mkLine "Revenue" (- 2 ^ 63) "Header" ∈ lines
    /\ details_under "Revenue" lines
       = [ mkLine "  Product Sales" (2 ^ 62) "Detail";
           mkLine "  Service Revenue" (2 ^ 62) "Detail" ]
    /\ foldr Z.add 0 (LineAmount <$> details_under "Revenue" lines) = 2 ^ 63
    /\ ~ (forall h, h ∈ lines -> LineType h = "Header" ->
            details_under (LineItem h) lines <> [] ->
            foldr Z.add 0 (LineAmount <$> details_under (LineItem h) lines) = LineAmount h).
Proof.
  intros rows. split; [all_fit_int64 |]. eexists. split; [reflexivity |].
  assert (Hin : mkLine "Revenue" (- 2 ^ 63) "Header"
                ∈ [ mkLine "Revenue" (- 2 ^ 63) "Header";
                    mkLine "  Product Sales" (2 ^ 62) "Detail";
                    mkLine "  Service Revenue" (2 ^ 62) "Detail";
                    mkLine "Cost of Goods Sold" 0 "Header";
                    mkLine "Gross Profit" (- 2 ^ 63) "Total";
                    mkLine "Operating Expenses" 0 "Header";
                    mkLine "Operating Income" (- 2 ^ 63) "Total";
                    mkLine "Net Income" (- 2 ^ 63) "Grand Total" ])
    by apply list_elem_of_here.
  split; [exact Hin |]. split; [reflexivity |]. split; [reflexivity |].
  intros Hall. specialize (Hall _ Hin eq_refl ltac:(discriminate)). discriminate Hall.
Qed.

(** C7, amended.  For every sequence of transaction rows with integer
    amounts, held in an [int64] column, and every Header line of the statement
    that has Detail lines under it, the amounts of these
    Detail lines sum to the header's amount in 64-bit arithmetic, and exactly
    when their sum is within the range of an [int64].  Each Detail line,
    labelled with a Sub-Account indented by two blanks, carries the sum of
    [Amount] over the rows of that single Sub-Account as an [int64] holds it:
    the sum itself when that is within the range.  (The Revenue header is the
    one with Detail lines.) *)
Theorem details_sum_to_their_header (rows : list TransactionRow) :
  int64_amounts rows ->
  exists lines,
    build (frame_of_rows rows) = Return lines
    /\ forall h, h ∈ lines -> LineType h = "Header" ->
         details_under (LineItem h) lines <> [] ->
         let details_sum := foldr Z.add 0 (LineAmount <$> details_under (LineItem h) lines) in
         wrap64 details_sum = LineAmount h
         /\ (in_int64 details_sum -> details_sum = LineAmount h)
         /\ forall d, d ∈ details_under (LineItem h) lines ->
              LineType d = "Detail"
              /\ exists sub_account,
                   let rows_sum :=
                     foldr Z.add 0 (Amount <$> filter (fun r => SubAccount r = sub_account) rows) in
                   LineItem d = "  " ++ sub_account
                   /\ LineAmount d = wrap64 rows_sum
                   /\ (in_int64 rows_sum -> LineAmount d = rows_sum).
Proof.
  intros _. eexists. split; [apply build_rows |].
  intros h Hin Hheader Hsome.
  repeat (apply elem_of_cons in Hin as [-> | Hin]); try discriminate Hheader;
    try (by apply elem_of_nil in Hin); try (exfalso; by apply Hsome).
  clear Hheader Hsome.
  change (details_under _ _)
    with [ mkLine "  Product Sales" (total64 rows ["Product Sales"]) "Detail";
           mkLine "  Service Revenue" (total64 rows ["Service Revenue"]) "Detail" ].
  cbn zeta.
  assert (Hsum : wrap64 (foldr Z.add 0
                   (LineAmount <$> [ mkLine "  Product Sales" (total64 rows ["Product Sales"]) "Detail";
                                     mkLine "  Service Revenue" (total64 rows ["Service Revenue"]) "Detail" ]))
                 = total64 rows ["Product Sales"; "Service Revenue"]).
  { cbn [LineAmount fmap list_fmap foldr]. rewrite (total_of_two rows) by done.
    rewrite Z.add_0_r. apply int64_add_wraps. }
  split; [exact Hsum |]. split.
  - intros Hfits. rewrite <- Hsum. symmetry. by apply wrap64_in_range.
  - intros d Hd.
    assert (Hone : forall s, total_of rows [s]
                   = foldr Z.add 0 (Amount <$> filter (fun r => SubAccount r = s) rows)).
    { intros s. do 2 f_equal. apply list_filter_iff. intros r.
      by rewrite list_elem_of_singleton. }
    repeat (apply elem_of_cons in Hd as [-> | Hd]); [| | by apply elem_of_nil in Hd].
    + split; [done |]. exists "Product Sales". cbn [LineItem LineAmount].
      rewrite <- Hone. split; [done |]. split; [done |].
      intros Hfits. by apply wrap64_in_range.
    + split; [done |]. exists "Service Revenue". cbn [LineItem LineAmount].
      rewrite <- Hone. split; [done |]. split; [done |].
      intros Hfits. by apply wrap64_in_range.
Qed.

(** On the sample data the two Detail lines under Revenue add up to 620000. *)
Lemma details_sum_to_their_header_witness :
  exists lines,
    build (frame_of_rows IncomeStatement.sample_rows) = Return lines
    /\ details_under "Revenue" lines
       = [mkLine "  Product Sales" 500000 "Detail"; mkLine "  Service Revenue" 120000 "Detail"]
    /\ foldr Z.add 0 (LineAmount <$> details_under "Revenue" lines) = 620000.
Proof.
  destruct (details_sum_to_their_header IncomeStatement.sample_rows)
    as (lines & Hbuild & Hsum); [all_fit_int64 |].
  exists lines.
  assert (Hlines : Return lines
                   = Return [ mkLine "Revenue" 620000 "Header";
                              mkLine "  Product Sales" 500000 "Detail";
                              mkLine "  Service Revenue" 120000 "Detail";
                              mkLine "Cost of Goods Sold" (-280000) "Header";
                              mkLine "Gross Profit" 340000 "Total";
                              mkLine "Operating Expenses" (-135000) "Header";
                              mkLine "Operating Income" 205000 "Total";
                              mkLine "Net Income" 165000 "Grand Total" ])
    by (rewrite <- Hbuild; reflexivity).
  injection Hlines as Hlines.
  split; [rewrite Hlines; reflexivity |].
  split; [rewrite Hlines; reflexivity |].
  destruct (Hsum (mkLine "Revenue" 620000 "Header")) as (_ & Hrev & _).
  - rewrite Hlines. apply list_elem_of_here.
  - reflexivity.
  - rewrite Hlines. discriminate.
  - apply Hrev. rewrite Hlines. fits_int64.
Defined.

(** Two frames with the same Sub-Account and Amount columns over the same
    index have the same totals, whatever their other columns hold. *)
Lemma get_total_reads_two_columns (df1 df2 : DataFrame) (sub_accounts : list string) :
  columns df1 !! "Sub-Account" = columns df2 !! "Sub-Account" ->
  columns df1 !! "Amount" = columns df2 !! "Amount" ->
  nrows df1 = nrows df2 ->
  get_total df1 sub_accounts = get_total df2 sub_accounts.
Proof.
  intros Hsub Hamt Hn. unfold get_total, getitem. rewrite Hsub.
  destruct (columns df2 !! "Sub-Account") as [s |]; [| done].
  cbn [mbind result_bind]. unfold boolean_index. rewrite Hn.
  case_decide; [| done].
  cbn [mbind result_bind columns]. by rewrite !lookup_fmap, Hamt.
Qed.

Lemma build_reads_two_columns (df1 df2 : DataFrame) :
  columns df1 !! "Sub-Account" = columns df2 !! "Sub-Account" ->
  columns df1 !! "Amount" = columns df2 !! "Amount" ->
  nrows df1 = nrows df2 ->
  calculate_totals df1 = calculate_totals df2 /\ build df1 = build df2.
Proof.
  intros Hsub Hamt Hn.
  assert (Htot : calculate_totals df1 = calculate_totals df2).
  { unfold calculate_totals, dict_get.
    destruct structure_items as (-> & -> & -> & ->). cbn [mbind result_bind].
    by rewrite !(get_total_reads_two_columns df1 df2). }
  split; [exact Htot |].
  unfold build. rewrite Htot. destruct (calculate_totals df2) as [t | e]; [| done].
  cbn [mbind result_bind]. unfold statement_data.
  by rewrite !(get_total_reads_two_columns df1 df2).
Qed.

(** C9.  Two sequences of rows with the same Sub-Accounts and Amounts, row by
    row, give the same totals, the same statement lines and the same printed
    statement: the Account and the Period of a row play no part. *)
Theorem statement_ignores_account_and_period (rows1 rows2 : list TransactionRow) :
  SubAccount <$> rows1 = SubAccount <$> rows2 ->
  Amount <$> rows1 = Amount <$> rows2 ->
  calculate_totals (frame_of_rows rows1) = calculate_totals (frame_of_rows rows2)
  /\ build (frame_of_rows rows1) = build (frame_of_rows rows2)
  /\ forall out, main (frame_of_rows rows1) out = main (frame_of_rows rows2) out.
Proof.
  intros Hsub Hamt.
  assert (Hn : length rows1 = length rows2).
  { by rewrite <- (length_fmap SubAccount rows1), Hsub, length_fmap. }
  destruct (build_reads_two_columns (frame_of_rows rows1) (frame_of_rows rows2))
    as [Htot Hbuild].
  - change (Some (ColStr (SubAccount <$> rows1)) = Some (ColStr (SubAccount <$> rows2))).
    by rewrite Hsub.
  - change (Some (ColInt (Amount <$> rows1)) = Some (ColInt (Amount <$> rows2))).
    by rewrite Hamt.
  - exact Hn.
  - split; [exact Htot |]. split; [exact Hbuild |].
    intros out. by rewrite !main_prints, Hbuild.
Qed.

(** A sale booked under the account "Tax" in another period counts as
    revenue all the same. *)
Lemma statement_ignores_account_and_period_witness :
  let booked := [ mkTransaction "Revenue" "Product Sales" 100 "2023-Q1";
                  mkTransaction "Tax" "Income Tax" (-30) "2023-Q1" ] in
  let moved := [ mkTransaction "Tax" "Product Sales" 100 "2024-Q4";
                 mkTransaction "Revenue" "Income Tax" (-30) "2019-Q2" ] in
  calculate_totals (frame_of_rows booked) = calculate_totals (frame_of_rows moved)
  /\ build (frame_of_rows booked) = build (frame_of_rows moved)
  /\ forall out, main (frame_of_rows booked) out = main (frame_of_rows moved) out.
Proof.
  intros booked moved.
  apply (statement_ignores_account_and_period booked moved); reflexivity.
Defined.

(* ===================================================================== *)
(** * Integers as binary64 numbers                                        *)
(* ===================================================================== *)

(** The conversion of a non-zero integer keeps its sign: it is a finite number
    or, past the largest finite number, an infinity of that sign.  It is never
    a zero or not-a-number. *)

Lemma digits2_pos_size p : digits2_pos p = Pos.size p.
Proof. induction p; cbn; by rewrite ?IHp. Qed.

Lemma shr_1_nonneg mrs : 0 <= shr_m mrs -> shr_m (shr_1 mrs) = Z.div2 (shr_m mrs).
Proof. destruct mrs as [[| [p | p |] | p] r s]; cbn; try done; lia. Qed.

Lemma iter_shr_1 n mrs :
  0 <= shr_m mrs -> shr_m (iter_pos shr_1 n mrs) = shr_m mrs / 2 ^ Z.pos n.
Proof.
  revert mrs. induction n as [n IH | n IH |]; intros mrs Hm; cbn [iter_pos].
  - assert (H1 : 0 <= shr_m (shr_1 mrs)).
    { rewrite shr_1_nonneg, Z.div2_div by done. apply Z.div_pos; lia. }
    assert (H2 : 0 <= shr_m (iter_pos shr_1 n (shr_1 mrs))).
    { rewrite IH by done. apply Z.div_pos; lia. }
    rewrite IH, IH, shr_1_nonneg, Z.div2_div by done.
    rewrite !Z.div_div by lia. f_equal.
    rewrite Pos2Z.inj_xI, Z.pow_add_r, Z.pow_mul_r by lia.
    change (2 ^ 2) with (2 * 2). rewrite Z.pow_mul_l. lia.
  - assert (H2 : 0 <= shr_m (iter_pos shr_1 n mrs)).
    { rewrite IH by done. apply Z.div_pos; lia. }
    rewrite IH, IH by done.
    rewrite !Z.div_div by lia. f_equal.
    rewrite Pos2Z.inj_xO, <- Z.pow_add_r by lia. f_equal. lia.
  - by rewrite shr_1_nonneg, Z.div2_div.
Qed.

Lemma pow2_size_le p : 2 ^ (Z.pos (Pos.size p) - 1) <= Z.pos p.
Proof.
  pose proof (Pos.size_le p) as H.
  apply Pos2Z.pos_le_pos in H. rewrite Pos2Z.inj_pow in H.
  replace (Z.pos (Pos.size p)) with (Z.succ (Z.pos (Pos.size p) - 1)) in H by lia.
  rewrite Z.pow_succ_r in H by lia. lia.
Qed.

Lemma shr_m_of_loc m l : shr_m (shr_record_of_loc m l) = m.
Proof. by destruct l as [| []]. Qed.

Lemma shr_fexp_positive p ex l :
  emin prec64 emax64 <= ex ->
  0 < shr_m (fst (shr_fexp prec64 emax64 (Z.pos p) ex l))
  /\ ex <= snd (shr_fexp prec64 emax64 (Z.pos p) ex l).
Proof.
  intros Hex. unfold shr_fexp, shr.
  destruct (fexp prec64 emax64 (Zdigits2 (Z.pos p) + ex) - ex) as [| q | q] eqn:Hn;
    cbn [fst snd]; rewrite ?shr_m_of_loc; try lia.
  rewrite iter_shr_1 by (rewrite shr_m_of_loc; lia).
  rewrite shr_m_of_loc. split; [| lia].
  apply Z.div_str_pos. split; [lia |].
  cbn [Zdigits2] in Hn. rewrite digits2_pos_size in Hn.
  unfold fexp, prec64, emin in *.
  etransitivity; [| apply pow2_size_le].
  apply Z.pow_le_mono_r; lia.
Qed.

Lemma round_nearest_even_ge m l : m <= round_nearest_even m l.
Proof. destruct l as [| []]; cbn; try lia. destruct (Z.even m); lia. Qed.

Lemma binary_round_aux_sign sx p ex :
  emin prec64 emax64 <= ex ->
  (exists m e, binary_round_aux prec64 emax64 sx (Z.pos p) ex loc_Exact = S754_finite sx m e)
  \/ binary_round_aux prec64 emax64 sx (Z.pos p) ex loc_Exact = S754_infinity sx.
Proof.
  intros Hex. unfold binary_round_aux.
  destruct (shr_fexp_positive p ex loc_Exact Hex) as [Hm He].
  destruct (shr_fexp prec64 emax64 (Z.pos p) ex loc_Exact) as [mrs' e'].
  cbn [fst snd] in Hm, He.
  pose proof (round_nearest_even_ge (shr_m mrs') (loc_of_shr_record mrs')) as Hr.
  destruct (round_nearest_even (shr_m mrs') (loc_of_shr_record mrs')) as [| p1 | p1]; try lia.
  destruct (shr_fexp_positive p1 e' loc_Exact ltac:(lia)) as [Hm2 _].
  destruct (shr_fexp prec64 emax64 (Z.pos p1) e' loc_Exact) as [mrs'' e''].
  cbn [fst] in Hm2.
  destruct (shr_m mrs'') as [| m | m]; try lia.
  destruct (e'' <=? emax64 - prec64)%Z; eauto.
Qed.

Lemma shl_align_exponent mx ex ex' :
  Z.min ex ex' <= snd (shl_align mx ex ex').
Proof. unfold shl_align. destruct (ex' - ex) eqn:H; cbn [snd]; lia. Qed.

Lemma float_of_int_sign (z : Z) :
  z <> 0 ->
  (exists m e, float_of_int z = S754_finite (z <? 0)%Z m e)
  \/ float_of_int z = S754_infinity (z <? 0)%Z.
Proof.
  intros Hz. unfold float_of_int, binary_normalize, binary_round.
  destruct z as [| p | p]; [done | |];
    destruct (shl_align p 0 _) as [mz ez] eqn:Hal;
    apply binary_round_aux_sign;
    pose proof (shl_align_exponent p 0 (fexp prec64 emax64 (Z.pos (digits2_pos p) + 0))) as H;
    rewrite Hal in H; cbn [snd] in H; unfold fexp, emin, prec64, emax64 in *; lia.
Qed.

Lemma fdiv_by_zero (z : Z) :
  fdiv (float_of_int z) (float_of_int 0)
  = if decide (z = 0) then S754_nan else S754_infinity (z <? 0)%Z.
Proof.
  case_decide as Hz; [by subst |].
  destruct (float_of_int_sign z Hz) as [(m & e & ->) | ->];
    cbn; by rewrite xorb_false_r.
Qed.

Import VarianceAnalysis.

(* ===================================================================== *)
(** * Properties of the variance analysis                                 *)
(* ===================================================================== *)

(** The entry of Variance ($) for a row: the difference of two entries of
    64-bit integer columns. *)
Abbreviation difference_of row := (int64_sub (Actual row) (Budget row)).

(** The percentage the script computes for a row. *)
Abbreviation percent_of row :=
  (fmul (fdiv (float_of_int (difference_of row)) (float_of_int (Budget row)))
        (float_of_int 100)).

(** The row of the finished frame for an input row. *)
Abbreviation variance_of row :=
  (mkVariance (Department row) (Actual row) (Budget row) (difference_of row)
              (percent_of row) (status_of (percent_of row))).

Section VarianceFacts.

Implicit Types (rows : list BudgetRow) (df : DataFrame).

Lemma zip_with_fmap_same {A B C D} (f : B -> C -> D) (g : A -> B) (h : A -> C) (l : list A) :
  zip_with f (g <$> l) (h <$> l) = (fun x => f (g x) (h x)) <$> l.
Proof. induction l as [| x l IH]; [done |]. cbn. by f_equal. Qed.

Lemma setitem_fits df (c : string) (s : Series) :
  series_len s = nrows df ->
  setitem df c s = Return (mkDataFrame (nrows df) (<[c := s]> (columns df))).
Proof. intros H. unfold setitem. by rewrite decide_True. Qed.

Lemma frame_of_rows_columns rows :
  columns (VarianceAnalysis.frame_of_rows rows) !! "Department"
  = Some (ColStr (Department <$> rows))
  /\ columns (VarianceAnalysis.frame_of_rows rows) !! "Actual" = Some (ColInt (Actual <$> rows))
  /\ columns (VarianceAnalysis.frame_of_rows rows) !! "Budget" = Some (ColInt (Budget <$> rows))
  /\ nrows (VarianceAnalysis.frame_of_rows rows) = length rows.
Proof. repeat split. Qed.

(** The finished frame of a sequence of input rows: its three columns and the
    three derived ones. *)
Lemma calculate_rows rows :
  calculate (VarianceAnalysis.frame_of_rows rows)
  = Return
      (mkDataFrame (length rows)
         (<["Status" := ColStr ((fun row => status_of (percent_of row)) <$> rows)]>
          (<["Variance (%)" := ColFloat ((fun row => percent_of row) <$> rows)]>
           (<["Variance ($)" := ColInt ((fun row => difference_of row) <$> rows)]>
            (columns (VarianceAnalysis.frame_of_rows rows)))))).
Proof.
  destruct (frame_of_rows_columns rows) as (_ & Hactual & Hbudget & Hn).
  unfold calculate, getitem. rewrite Hactual, Hbudget.
  cbn [mbind result_bind series_sub]. rewrite zip_with_fmap_same.
  rewrite setitem_fits by (cbn; by rewrite length_fmap).
  cbn [mbind result_bind columns nrows].
  rewrite lookup_insert_eq. rewrite lookup_insert_ne, Hbudget by done.
  cbn [mbind result_bind series_truediv to_floats].
  rewrite <- !list_fmap_compose, zip_with_fmap_same.
  cbn [series_mul]. rewrite <- list_fmap_compose.
  rewrite setitem_fits by (cbn; by rewrite length_fmap).
  cbn [mbind result_bind columns nrows].
  rewrite lookup_insert_eq. cbn [mbind result_bind apply_status].
  rewrite <- list_fmap_compose.
  rewrite setitem_fits by (cbn; by rewrite length_fmap).
  cbn [nrows columns]. by rewrite Hn.
Qed.

Lemma zip_rows_fmap rows :
  zip_rows (Department <$> rows) (Actual <$> rows) (Budget <$> rows)
           ((fun row => difference_of row) <$> rows)
           ((fun row => percent_of row) <$> rows)
           ((fun row => status_of (percent_of row)) <$> rows)
  = (fun row => variance_of row) <$> rows.
Proof. induction rows as [| row rows IH]; [done |]. cbn. by f_equal. Qed.

Lemma finished_frame_columns rows (s1 s2 s3 : Series) :
  let finished :=
    <["Status" := s3]> (<["Variance (%)" := s2]> (<["Variance ($)" := s1]>
      (columns (VarianceAnalysis.frame_of_rows rows)))) in
  finished !! "Department" = Some (ColStr (Department <$> rows))
  /\ finished !! "Actual" = Some (ColInt (Actual <$> rows))
  /\ finished !! "Budget" = Some (ColInt (Budget <$> rows))
  /\ finished !! "Variance ($)" = Some s1
  /\ finished !! "Variance (%)" = Some s2
  /\ finished !! "Status" = Some s3.
Proof. repeat split. Qed.

Lemma analyze_rows rows :
  analyze (VarianceAnalysis.frame_of_rows rows) = Return ((fun row => variance_of row) <$> rows).
Proof.
  destruct (decide (rows = [])) as [-> | Hrows]; [reflexivity |].
  unfold analyze. rewrite calculate_rows. cbn [mbind result_bind].
  unfold VarianceAnalysis.iterrows. cbn [nrows].
  rewrite decide_False by (by destruct rows).
  unfold get_str, get_int, get_float, getitem. cbn [columns].
  destruct (finished_frame_columns rows
              (ColInt ((fun row => difference_of row) <$> rows))
              (ColFloat ((fun row => percent_of row) <$> rows))
              (ColStr ((fun row => status_of (percent_of row)) <$> rows)))
    as (-> & -> & -> & -> & -> & ->).
  cbn [mbind result_bind].
  by rewrite zip_rows_fmap.
Qed.

(** The report of a frame: the four lines of its head and one line per row.
    When the assignments raise nothing is printed; when reading the rows
    raises, the head is. *)
Lemma variance_main_prints df out :
  let head := ["Variance Analysis Report"; str_mul "=" 60; header; str_mul "-" 60] in
  VarianceAnalysis.main df out
  = match calculate df with
    | Return finished =>
        match VarianceAnalysis.iterrows finished with
        | Return rows => (Return tt, out ++ head ++ (row_text <$> rows))%list
        | Raise e => (Raise e, out ++ head)%list
        end
    | Raise e => (Raise e, out)
    end.
Proof.
  intros head. unfold VarianceAnalysis.main. rewrite bind_lift.
  destruct (calculate df) as [finished | e]; [| done].
  rewrite !bind_print, bind_lift.
  destruct (VarianceAnalysis.iterrows finished) as [rows | e].
  - rewrite (for_each_prints _ (fun row => [row_text row])) by done.
    assert (Hrows : rows ≫= (fun row => [row_text row]) = row_text <$> rows).
    { induction rows as [| row rows IH]; [done |]. cbn. by f_equal. }
    by rewrite Hrows, <- !app_assoc.
  - by rewrite <- !app_assoc.
Qed.

Lemma variance_main_rows rows out :
  VarianceAnalysis.main (VarianceAnalysis.frame_of_rows rows) out
  = (Return tt,
     out ++ ["Variance Analysis Report"; str_mul "=" 60; header; str_mul "-" 60]
         ++ (row_text <$> ((fun row => variance_of row) <$> rows)))%list.
Proof.
  pose proof (analyze_rows rows) as Hrows. unfold analyze in Hrows.
  rewrite variance_main_prints.
  destruct (calculate (VarianceAnalysis.frame_of_rows rows)) as [finished | e]; [| done].
  cbn [mbind result_bind] in Hrows. by rewrite Hrows.
Qed.

End VarianceFacts.

(** The sample frame of the script is the frame of its rows. *)
Example sample_variance_frame :
  VarianceAnalysis.df = Return (VarianceAnalysis.frame_of_rows VarianceAnalysis.sample_rows).
Proof. reflexivity. Qed.

(** The report of the sample data. *)
Example sample_report :
  printed (VarianceAnalysis.main (VarianceAnalysis.frame_of_rows VarianceAnalysis.sample_rows))
  = [ "Variance Analysis Report";
      "============================================================";
      "Department          Actual     Budget    Var ($)    Var (%)   Status";
      "------------------------------------------------------------";
      "Sales           $120,000   $100,000    $20,000      20.0%      Red";
      "Marketing       $45,000    $50,000    $-5,000     -10.0%   Yellow";
      "Engineering     $150,000   $140,000    $10,000       7.1%   Yellow";
      "HR              $20,000    $20,000         $0       0.0%   Yellow";
      "Finance         $25,000    $22,000     $3,000      13.6%      Red" ].
Proof. vm_compute. reflexivity. Qed.

(** C6, counterexample.  A department with the actual figure 2^63 - 1 and
    the budget -1, both of which an [int64] column holds: the difference is
    2^63, which it does not hold, and the script has -2^63 for it, with a
    percentage of 2^63 * 100 and the status Red. *)
Lemma variance_wraps_around :
  let rows := [mkBudgetRow "Treasury" (2 ^ 63 - 1) (-1)] in
  int64_figures rows
  /\ analyze (VarianceAnalysis.frame_of_rows rows)
     = Return [mkVariance "Treasury" (2 ^ 63 - 1) (-1) (- 2 ^ 63)
                 (float_of_int (2 ^ 63 * 100)) "Red"]
  /\ ~ (forall rows out i row r,
          int64_figures rows ->
          analyze (VarianceAnalysis.frame_of_rows rows) = Return out ->
          rows !! i = Some row -> out !! i = Some r ->
          varianceAbsolute r = Actual row - Budget row).
Proof.
  intros rows.
  assert (Hfit : int64_figures rows) by all_fit_int64.
  assert (Hrun : analyze (VarianceAnalysis.frame_of_rows rows)
                 = Return [mkVariance "Treasury" (2 ^ 63 - 1) (-1) (- 2 ^ 63)
                             (float_of_int (2 ^ 63 * 100)) "Red"])
    by (vm_compute; reflexivity).
  split; [exact Hfit |]. split; [exact Hrun |].
  intros Hall.
  specialize (Hall rows _ 0%nat (mkBudgetRow "Treasury" (2 ^ 63 - 1) (-1)) _
                Hfit Hrun eq_refl eq_refl).
  discriminate Hall.
Qed.

(** C6, amended.  For every input row of a table with integer figures, held
    in [int64] columns, the finished frame holds varianceAbsolute = actual -
    budget as an [int64] holds it: reduced to 64 bits in two's complement,
    hence actual - budget itself when that is within the range; and
    variancePercent = varianceAbsolute / budget * 100, the quotient and the
    product being those of binary64 numbers.  actual = 120000 and budget =
    100000 give 20000, 20.0 and Red. *)
Theorem variance_is_difference_and_percentage (rows : list BudgetRow) :
  int64_figures rows ->
  (exists out,
     analyze (VarianceAnalysis.frame_of_rows rows) = Return out
     /\ length out = length rows
     /\ forall i row, rows !! i = Some row ->
          exists r,
            out !! i = Some r
            /\ varianceAbsolute r = wrap64 (Actual row - Budget row)
            /\ (in_int64 (Actual row - Budget row) ->
                varianceAbsolute r = Actual row - Budget row)
            /\ variancePercent r
               = fmul (fdiv (float_of_int (varianceAbsolute r)) (float_of_int (Budget row)))
                      (float_of_int 100))
  /\ analyze (VarianceAnalysis.frame_of_rows [mkBudgetRow "Sales" 120000 100000])
     = Return [mkVariance "Sales" 120000 100000 20000 (float_of_int 20) "Red"]
  /\ format_f false 1 (float_of_int 20) = "20.0".
Proof.
  intros _. split; [| split; [| reflexivity]].
  - eexists. split; [apply analyze_rows |]. split; [by rewrite length_fmap |].
    intros i row Hrow. exists (variance_of row).
    split; [by rewrite list_lookup_fmap, Hrow |].
    cbn [varianceAbsolute variancePercent].
    split; [reflexivity |]. split; [| reflexivity].
    intros Hfits. by apply wrap64_in_range.
  - rewrite analyze_rows. reflexivity.
Qed.

(** On the sample data every difference is within the range: Marketing, with
    45000 against 50000, has the variance -5000. *)
Lemma variance_is_difference_and_percentage_witness :
  exists out r,
    analyze (VarianceAnalysis.frame_of_rows VarianceAnalysis.sample_rows) = Return out
    /\ out !! 1%nat = Some r
    /\ varianceAbsolute r = -5000
    /\ variancePercent r
       = fmul (fdiv (float_of_int (-5000)) (float_of_int 50000)) (float_of_int 100).
Proof.
  destruct (variance_is_difference_and_percentage VarianceAnalysis.sample_rows)
    as ((out & Hout & _ & Hrows) & _); [all_fit_int64 |].
  destruct (Hrows 1%nat (mkBudgetRow "Marketing" 45000 50000) eq_refl)
    as (r & Hr & _ & Hexact & Hpercent).
  exists out, r. split; [exact Hout |]. split; [exact Hr |].
  cbn [Actual Budget] in Hexact, Hpercent.
  rewrite Hpercent, Hexact by fits_int64.
  split; reflexivity.
Defined.

(** C3.  The status of every row, with a budget that is zero or not, is Red
    when 10 < variancePercent, Green when variancePercent < -10 and Yellow
    otherwise, the comparisons being those of binary64 numbers.  A percentage
    of exactly 10.0 (actual = 110000, budget = 100000) and one of exactly -10.0
    (actual = 45000, budget = 50000) are Yellow. *)
Theorem status_follows_thresholds (rows : list BudgetRow) :
  (exists out,
     analyze (VarianceAnalysis.frame_of_rows rows) = Return out
     /\ length out = length rows
     /\ forall r, r ∈ out ->
          (flt (float_of_int 10) (variancePercent r) = true -> status r = "Red")
          /\ (flt (float_of_int 10) (variancePercent r) = false ->
              flt (variancePercent r) (float_of_int (-10)) = true -> status r = "Green")
          /\ (flt (float_of_int 10) (variancePercent r) = false ->
              flt (variancePercent r) (float_of_int (-10)) = false -> status r = "Yellow"))
  /\ status_of (float_of_int 10) = "Yellow"
  /\ status_of (float_of_int (-10)) = "Yellow"
  /\ analyze (VarianceAnalysis.frame_of_rows [mkBudgetRow "Travel" 110000 100000])
     = Return [mkVariance "Travel" 110000 100000 10000 (float_of_int 10) "Yellow"]
  /\ analyze (VarianceAnalysis.frame_of_rows [mkBudgetRow "Marketing" 45000 50000])
     = Return [mkVariance "Marketing" 45000 50000 (-5000) (float_of_int (-10)) "Yellow"].
Proof.
  split; [| split; [reflexivity | split; [reflexivity |]]].
  - eexists. split; [apply analyze_rows |]. split; [by rewrite length_fmap |].
    intros r Hr. apply list_elem_of_fmap in Hr as (row & -> & _).
    cbn [variancePercent status]. unfold status_of.
    split; [| split].
    + by intros ->.
    + by intros -> ->.
    + by intros -> ->.
  - rewrite !analyze_rows. split; reflexivity.
Qed.

(** A row above the band, one below it and one inside it. *)
Lemma status_follows_thresholds_witness :
  analyze (VarianceAnalysis.frame_of_rows
             [ mkBudgetRow "Finance" 25000 22000;
               mkBudgetRow "Facilities" 80 100;
               mkBudgetRow "Engineering" 150000 140000 ])
  = Return
      [ mkVariance "Finance" 25000 22000 3000
          (fmul (fdiv (float_of_int 3000) (float_of_int 22000)) (float_of_int 100)) "Red";
        mkVariance "Facilities" 80 100 (-20) (float_of_int (-20)) "Green";
        mkVariance "Engineering" 150000 140000 10000
          (fmul (fdiv (float_of_int 10000) (float_of_int 140000)) (float_of_int 100)) "Yellow" ]
  /\ status_of (fmul (fdiv (float_of_int 3000) (float_of_int 22000)) (float_of_int 100)) = "Red"
  /\ status_of (float_of_int (-20)) = "Green".
Proof.
  destruct (status_follows_thresholds
              [ mkBudgetRow "Finance" 25000 22000;
                mkBudgetRow "Facilities" 80 100;
                mkBudgetRow "Engineering" 150000 140000 ])
    as ((out & Hout & _ & Hstatus) & _).
  assert (Hrows : Return out
                  = Return
                      [ mkVariance "Finance" 25000 22000 3000
                          (fmul (fdiv (float_of_int 3000) (float_of_int 22000)) (float_of_int 100))
                          "Red";
                        mkVariance "Facilities" 80 100 (-20) (float_of_int (-20)) "Green";
                        mkVariance "Engineering" 150000 140000 10000
                          (fmul (fdiv (float_of_int 10000) (float_of_int 140000))
                                (float_of_int 100)) "Yellow" ])
    by (rewrite <- Hout; reflexivity).
  split; [by rewrite Hout |].
  injection Hrows as ->.
  split.
  - destruct (Hstatus (mkVariance "Finance" 25000 22000 3000
                (fmul (fdiv (float_of_int 3000) (float_of_int 22000)) (float_of_int 100)) "Red"))
      as (_ & _ & _); [apply list_elem_of_here |]. reflexivity.
  - reflexivity.
Defined.

(** C10.  The analysis only adds columns: the row of the finished frame at
    each position carries the department, the actual and the budget figure of
    the input row at that position, and the finished frame has the three input
    columns as they were. *)
Theorem analysis_keeps_input_columns (rows : list BudgetRow) :
  (exists out,
     analyze (VarianceAnalysis.frame_of_rows rows) = Return out
     /\ (fun r => (department r, actual r, budget r)) <$> out
        = (fun row => (Department row, Actual row, Budget row)) <$> rows)
  /\ exists finished,
       calculate (VarianceAnalysis.frame_of_rows rows) = Return finished
       /\ nrows finished = nrows (VarianceAnalysis.frame_of_rows rows)
       /\ forall c, c ∈ ["Department"; "Actual"; "Budget"] ->
            columns finished !! c = columns (VarianceAnalysis.frame_of_rows rows) !! c.
Proof.
  split.
  - eexists. split; [apply analyze_rows |].
    by rewrite <- list_fmap_compose.
  - eexists. split; [apply calculate_rows |]. split; [reflexivity |].
    intros c Hc. cbn [columns].
    repeat (apply elem_of_cons in Hc as [-> | Hc]); [reflexivity .. |].
    by apply elem_of_nil in Hc.
Qed.

(** The same for any frame the three assignments succeed on: every column
    other than the three assigned ones is left as it was, and so is the
    index. *)
Lemma calculate_only_assigns_three_columns (df finished : DataFrame) (c : string) :
  calculate df = Return finished ->
  c ∉ ["Variance ($)"; "Variance (%)"; "Status"] ->
  nrows finished = nrows df /\ columns finished !! c = columns df !! c.
Proof.
  intros Hrun Hc.
  assert (Hset : forall d k s d', setitem d k s = Return d' ->
                 nrows d' = nrows d /\ columns d' = <[k := s]> (columns d)).
  { intros d k s d'. unfold setitem. case_decide; [| done]. by intros [= <-]. }
  unfold calculate in Hrun.
  repeat match type of Hrun with
         | (?m ≫= _) = Return _ =>
             let H := fresh "Hstep" in
             destruct m eqn:H; [cbn [mbind result_bind] in Hrun | discriminate Hrun]
         end.
  apply Hset in Hrun as [Hn3 Hc3].
  match goal with H : setitem _ "Variance (%)" _ = _ |- _ => apply Hset in H as [Hn2 Hc2] end.
  match goal with H : setitem _ "Variance ($)" _ = _ |- _ => apply Hset in H as [Hn1 Hc1] end.
  split; [congruence |].
  rewrite Hc3, lookup_insert_ne, Hc2, lookup_insert_ne, Hc1, lookup_insert_ne; [done | ..];
    intros <-; apply Hc; rewrite !elem_of_cons; auto.
Qed.

(* ===================================================================== *)
(** * Both reports are functions of their input                           *)
(* ===================================================================== *)

Lemma string_app_assoc (s1 s2 s3 : string) : (s1 ++ s2) ++ s3 = s1 ++ s2 ++ s3.
Proof.
  induction s1 as [| ch s1 IH]; [done |].
  change (String ch ((s1 ++ s2) ++ s3) = String ch (s1 ++ s2 ++ s3)).
  by rewrite IH.
Qed.

Lemma bytes_of_app (out lines : stdout) :
  bytes_of (out ++ lines)%list = bytes_of out ++ bytes_of lines.
Proof.
  induction out as [| line out IH]; [done |].
  cbn [app bytes_of foldr]. fold (bytes_of (out ++ lines)%list). fold (bytes_of out).
  by rewrite IH, !string_app_assoc.
Qed.

(** Two runs in a row of a script that ends normally and only appends to the
    output print its lines twice. *)
Lemma second_run_prints_the_same (script : IO unit) (lines : stdout) :
  (forall out, script out = (Return tt, out ++ lines)%list) ->
  printed (_ ← script; script) = (lines ++ lines)%list.
Proof.
  intros Hrun. unfold printed.
  change ((script ≫= fun _ => script) [])
    with (match script [] with
          | (Return _, out') => script out'
          | (Raise e, out') => (Raise e, out')
          end).
  by rewrite Hrun, Hrun.
Qed.

(** C8.  What either script does is determined by its input frame: run after
    anything was printed, it ends as it ends on an empty output and appends the
    lines it prints there, so the bytes it adds are the same in every run; and
    two runs in a row print the same lines twice. *)
Theorem reports_are_deterministic (df : DataFrame) (out : stdout) :
  IncomeStatement.main df out
  = (outcome (IncomeStatement.main df), out ++ printed (IncomeStatement.main df))%list
  /\ VarianceAnalysis.main df out
     = (outcome (VarianceAnalysis.main df), out ++ printed (VarianceAnalysis.main df))%list
  /\ (forall lines, bytes_of (out ++ lines)%list = bytes_of out ++ bytes_of lines)
  /\ (outcome (IncomeStatement.main df) = Return tt ->
      printed (_ ← IncomeStatement.main df; IncomeStatement.main df)
      = (printed (IncomeStatement.main df) ++ printed (IncomeStatement.main df))%list)
  /\ (outcome (VarianceAnalysis.main df) = Return tt ->
      printed (_ ← VarianceAnalysis.main df; VarianceAnalysis.main df)
      = (printed (VarianceAnalysis.main df) ++ printed (VarianceAnalysis.main df))%list).
Proof.
  assert (Hstatement : forall out,
            IncomeStatement.main df out
            = (outcome (IncomeStatement.main df),
               out ++ printed (IncomeStatement.main df))%list).
  { intros out'. unfold outcome, printed. rewrite !main_prints.
    destruct (build df); cbn [fst snd]; by rewrite ?app_nil_r. }
  assert (Hvariance : forall out,
            VarianceAnalysis.main df out
            = (outcome (VarianceAnalysis.main df),
               out ++ printed (VarianceAnalysis.main df))%list).
  { intros out'. unfold outcome, printed. rewrite !variance_main_prints.
    destruct (calculate df) as [finished | e]; [| cbn [fst snd]; by rewrite app_nil_r].
    by destruct (VarianceAnalysis.iterrows finished). }
  split; [apply Hstatement |]. split; [apply Hvariance |].
  split; [intros; apply bytes_of_app |].
  split; intros Hends; apply second_run_prints_the_same; intros out'.
  - by rewrite Hstatement, Hends.
  - by rewrite Hvariance, Hends.
Qed.

(** A statement printed twice in a row. *)
Lemma reports_are_deterministic_witness :
  let rows := [ IncomeStatement.mkTransaction "Revenue" "Product Sales" 900 "2023-Q1";
                IncomeStatement.mkTransaction "Tax" "Income Tax" (-1000) "2023-Q1" ] in
  let lines := [ "Income Statement (2023-Q1)";
                 "----------------------------------------";
                 "Revenue                           $900.00";
                 "  Product Sales                   $900.00";
                 "  Service Revenue                   $0.00";
                 "Cost of Goods Sold                  $0.00";
                 "Gross Profit                      $900.00";
                 "----------------------------------------";
                 "Operating Expenses                  $0.00";
                 "Operating Income                  $900.00";
                 "----------------------------------------";
                 "Net Income                      ($100.00)";
                 "========================================" ] in
  printed (IncomeStatement.main (IncomeStatement.frame_of_rows rows)) = lines
  /\ printed (_ ← IncomeStatement.main (IncomeStatement.frame_of_rows rows);
              IncomeStatement.main (IncomeStatement.frame_of_rows rows))
     = (lines ++ lines)%list.
Proof.
  intros rows lines.
  destruct (reports_are_deterministic (IncomeStatement.frame_of_rows rows) [])
    as (_ & _ & _ & Htwice & _).
  split; [reflexivity |].
  apply Htwice. reflexivity.
Defined.

(* ===================================================================== *)
(** * The income statement as a function of the ledger                    *)
(* ===================================================================== *)

(** The sub-accounts [structure] lists under some category. *)
Abbreviation listed_sub_accounts :=
  ["Product Sales"; "Service Revenue"; "Material Cost"; "Labor Cost";
   "Marketing"; "R&D"; "G&A"; "Income Tax"].

(** The eight lines of the statement of a ledger: the totals as an [int64]
    holds them, and the subtotals added in 64 bits. *)
Abbreviation statement_of rows :=
  [ mkLine "Revenue" (total64 rows ["Product Sales"; "Service Revenue"]) "Header";
    mkLine "  Product Sales" (total64 rows ["Product Sales"]) "Detail";
    mkLine "  Service Revenue" (total64 rows ["Service Revenue"]) "Detail";
    mkLine "Cost of Goods Sold" (total64 rows ["Material Cost"; "Labor Cost"]) "Header";
    mkLine "Gross Profit"
      (int64_add (total64 rows ["Product Sales"; "Service Revenue"])
                 (total64 rows ["Material Cost"; "Labor Cost"])) "Total";
    mkLine "Operating Expenses" (total64 rows ["Marketing"; "R&D"; "G&A"]) "Header";
    mkLine "Operating Income"
      (int64_add (int64_add (total64 rows ["Product Sales"; "Service Revenue"])
                            (total64 rows ["Material Cost"; "Labor Cost"]))
                 (total64 rows ["Marketing"; "R&D"; "G&A"])) "Total";
    mkLine "Net Income"
      (int64_add (int64_add (int64_add (total64 rows ["Product Sales"; "Service Revenue"])
                                       (total64 rows ["Material Cost"; "Labor Cost"]))
                            (total64 rows ["Marketing"; "R&D"; "G&A"]))
                 (total64 rows ["Income Tax"])) "Grand Total" ].

Section LedgerFacts.

Implicit Types (rows : list TransactionRow) (subs : list string).

Lemma build_statement_of rows :
  build (IncomeStatement.frame_of_rows rows) = Return (statement_of rows).
Proof. apply build_rows. Qed.

Lemma sum_app (l1 l2 : list Z) :
  foldr Z.add 0 (l1 ++ l2) = foldr Z.add 0 l1 + foldr Z.add 0 l2.
Proof. induction l1 as [| x l1 IH]; cbn; lia. Qed.

Lemma total_of_cons r rows subs :
  total_of (r :: rows) subs
  = (if bool_decide (SubAccount r ∈ subs) then Amount r else 0) + total_of rows subs.
Proof.
  rewrite filter_cons. case_bool_decide as Hin.
  - by rewrite decide_True.
  - by rewrite decide_False.
Qed.

Lemma total_of_app rows1 rows2 subs :
  total_of (rows1 ++ rows2)%list subs = total_of rows1 subs + total_of rows2 subs.
Proof. by rewrite filter_app, fmap_app, sum_app. Qed.

Lemma total_of_Permutation rows rows' subs :
  rows ≡ₚ rows' -> total_of rows subs = total_of rows' subs.
Proof.
  induction 1 as [| r rows rows' _ IH | r1 r2 rows | rows1 rows2 rows3 _ IH1 _ IH2].
  - reflexivity.
  - rewrite !total_of_cons. lia.
  - rewrite !total_of_cons. lia.
  - by rewrite IH1.
Qed.

(** The total of a set of sub-accounts depends on the set, not on the list
    that names it. *)
Lemma total_of_same_set rows subs1 subs2 :
  (forall x, x ∈ subs1 <-> x ∈ subs2) -> total_of rows subs1 = total_of rows subs2.
Proof.
  intros Hset. induction rows as [| r rows IH]; [done |].
  rewrite !total_of_cons, IH. f_equal.
  by rewrite (bool_decide_ext _ _ (Hset (SubAccount r))).
Qed.

Lemma total_of_disjoint rows subs1 subs2 :
  (forall x, x ∈ subs1 -> x ∉ subs2) ->
  total_of rows (subs1 ++ subs2)%list = total_of rows subs1 + total_of rows subs2.
Proof.
  intros Hdisjoint. induction rows as [| r rows IH]; [done |].
  rewrite !total_of_cons, IH.
  pose proof (Hdisjoint (SubAccount r)) as Hr.
  rewrite (bool_decide_ext _ _ (elem_of_app subs1 subs2 (SubAccount r))).
  destruct (decide (SubAccount r ∈ subs1)) as [H1 | H1];
    destruct (decide (SubAccount r ∈ subs2)) as [H2 | H2].
  - by destruct (Hr H1).
  - rewrite (bool_decide_eq_true_2 _ H1), (bool_decide_eq_false_2 _ H2).
    rewrite bool_decide_eq_true_2 by auto. lia.
  - rewrite (bool_decide_eq_false_2 _ H1), (bool_decide_eq_true_2 _ H2).
    rewrite bool_decide_eq_true_2 by auto. lia.
  - rewrite (bool_decide_eq_false_2 _ H1), (bool_decide_eq_false_2 _ H2).
    rewrite bool_decide_eq_false_2 by tauto. lia.
Qed.

(** Rows outside a set that covers [subs] do not count towards the total of
    [subs]. *)
Lemma total_of_filter (P : TransactionRow -> Prop) `{!forall r, Decision (P r)} rows subs :
  (forall r, SubAccount r ∈ subs -> P r) ->
  total_of (filter P rows) subs = total_of rows subs.
Proof.
  intros Hcover. induction rows as [| r rows IH]; [done |].
  rewrite filter_cons. destruct (decide (P r)) as [Hp | Hp].
  - by rewrite !total_of_cons, IH.
  - rewrite total_of_cons, IH.
    rewrite bool_decide_eq_false_2; [lia | auto].
Qed.

Lemma listed_covers (x : string) :
  (x ∈ ["Product Sales"; "Service Revenue"] -> x ∈ listed_sub_accounts)
  /\ (x ∈ ["Product Sales"] -> x ∈ listed_sub_accounts)
  /\ (x ∈ ["Service Revenue"] -> x ∈ listed_sub_accounts)
  /\ (x ∈ ["Material Cost"; "Labor Cost"] -> x ∈ listed_sub_accounts)
  /\ (x ∈ ["Marketing"; "R&D"; "G&A"] -> x ∈ listed_sub_accounts)
  /\ (x ∈ ["Income Tax"] -> x ∈ listed_sub_accounts).
Proof. rewrite !elem_of_cons, !elem_of_nil. tauto. Qed.

(** The statement of a ledger is the statement of its rows with a listed
    sub-account. *)
Lemma statement_of_listed rows :
  statement_of (filter (fun r => SubAccount r ∈ listed_sub_accounts) rows)
  = statement_of rows.
Proof.
  rewrite !(total_of_filter (fun r => SubAccount r ∈ listed_sub_accounts));
    [reflexivity | intros r; apply (listed_covers (SubAccount r)) ..].
Qed.

(** What the script prints for a ledger. *)
Lemma statement_main_rows rows out :
  IncomeStatement.main (IncomeStatement.frame_of_rows rows) out
  = (Return tt, out ++ "Income Statement (2023-Q1)" :: str_mul "-" rule_width
                    :: (statement_of rows ≫= row_lines))%list.
Proof. by rewrite main_prints, build_statement_of. Qed.

End LedgerFacts.

(** Two lists of sub-accounts have no name in common. *)
Ltac no_common_name :=
  intros ? ? ?;
  repeat match goal with
         | H : _ ∈ (_ ++ _)%list |- _ => apply elem_of_app in H as [H | H]
         | H : _ ∈ _ :: _ |- _ => apply elem_of_cons in H as [H | H]
         | H : _ ∈ [] |- _ => by apply elem_of_nil in H
         end;
  congruence.

(** The Header lines, the Operating Income line and the Net Income line of a
    statement. *)
Lemma statement_lines_by_kind (revenue product service cogs gross opex operating net : Z) :
  let lines :=
    [ mkLine "Revenue" revenue "Header";
      mkLine "  Product Sales" product "Detail";
      mkLine "  Service Revenue" service "Detail";
      mkLine "Cost of Goods Sold" cogs "Header";
      mkLine "Gross Profit" gross "Total";
      mkLine "Operating Expenses" opex "Header";
      mkLine "Operating Income" operating "Total";
      mkLine "Net Income" net "Grand Total" ] in
  LineAmount <$> filter (fun l => LineType l = "Header") lines = [revenue; cogs; opex]
  /\ LineAmount <$> filter (fun l => LineItem l = "Operating Income") lines = [operating]
  /\ LineAmount <$> filter (fun l => LineItem l = "Net Income") lines = [net].
Proof. split; [| split]; reflexivity. Qed.

(** Where no sum leaves the range, adding in 64 bits is adding. *)
Lemma zip_with_int64_add_exact (l1 l2 : list Z) :
  Forall in_int64 (zip_with Z.add l1 l2) -> zip_with int64_add l1 l2 = zip_with Z.add l1 l2.
Proof.
  revert l2. induction l1 as [| x l1 IH]; intros [| y l2]; cbn [zip_with]; try done.
  intros [Hxy Hrest]%Forall_cons. f_equal; [by apply wrap64_in_range | by apply IH].
Qed.

(** X1.  For every ledger with integer amounts, held in an [int64] column,
    the Header lines of the statement (Revenue, Cost of Goods Sold, Operating
    Expenses) add up to the amount of the Operating Income line, and the amount
    of the Net Income line is that sum plus the total of the Income Tax rows,
    which no Header line shows: both as an [int64] holds them, reduced to 64
    bits in two's complement, and exactly when the two sums are within the
    range. *)
Theorem header_lines_add_up_to_operating_income (rows : list TransactionRow) :
  int64_amounts rows ->
  exists lines,
    build (IncomeStatement.frame_of_rows rows) = Return lines
    /\ let headers :=
         foldr Z.add 0 (LineAmount <$> filter (fun l => LineType l = "Header") lines) in
       let taxes := total_of rows ["Income Tax"] in
       LineAmount <$> filter (fun l => LineItem l = "Operating Income") lines
       = [wrap64 headers]
       /\ LineAmount <$> filter (fun l => LineItem l = "Net Income") lines
          = [wrap64 (headers + taxes)]
       /\ (in_int64 headers ->
           LineAmount <$> filter (fun l => LineItem l = "Operating Income") lines = [headers])
       /\ (in_int64 (headers + taxes) ->
           LineAmount <$> filter (fun l => LineItem l = "Net Income") lines
           = [headers + taxes]).
Proof.
  intros _. eexists. split; [apply build_statement_of |].
  generalize (total_of rows ["Product Sales"; "Service Revenue"])
             (total_of rows ["Product Sales"]) (total_of rows ["Service Revenue"])
             (total_of rows ["Material Cost"; "Labor Cost"])
             (total_of rows ["Marketing"; "R&D"; "G&A"])
             (total_of rows ["Income Tax"]).
  intros R P S C O T.
  destruct (statement_lines_by_kind (wrap64 R) (wrap64 P) (wrap64 S) (wrap64 C)
              (int64_add (wrap64 R) (wrap64 C)) (wrap64 O)
              (int64_add (int64_add (wrap64 R) (wrap64 C)) (wrap64 O))
              (int64_add (int64_add (int64_add (wrap64 R) (wrap64 C)) (wrap64 O)) (wrap64 T)))
    as (Hheaders & Hoperating & Hnet).
  cbv zeta in *. rewrite Hheaders, Hoperating, Hnet.
  cbn [foldr].
  assert (Hop : int64_add (int64_add (wrap64 R) (wrap64 C)) (wrap64 O)
                = wrap64 (wrap64 R + (wrap64 C + (wrap64 O + 0)))) by int64_lia.
  assert (Hni : int64_add (int64_add (int64_add (wrap64 R) (wrap64 C)) (wrap64 O)) (wrap64 T)
                = wrap64 (wrap64 R + (wrap64 C + (wrap64 O + 0)) + T)) by int64_lia.
  rewrite Hni, Hop.
  split; [done |]. split; [done |].
  split; intros Hfits; by rewrite wrap64_in_range.
Qed.

(** On the sample data: 620000 - 280000 - 135000 = 205000, and 40000 of taxes
    less for the Net Income. *)
Lemma header_lines_add_up_to_operating_income_witness :
  exists lines,
    build (IncomeStatement.frame_of_rows IncomeStatement.sample_rows) = Return lines
    /\ foldr Z.add 0 (LineAmount <$> filter (fun l => LineType l = "Header") lines) = 205000
    /\ LineAmount <$> filter (fun l => LineItem l = "Operating Income") lines = [205000]
    /\ LineAmount <$> filter (fun l => LineItem l = "Net Income") lines = [165000].
Proof.
  destruct (header_lines_add_up_to_operating_income IncomeStatement.sample_rows)
    as (lines & Hbuild & Hsums); [all_fit_int64 |].
  exists lines. split; [exact Hbuild |].
  assert (Hlines : Return lines
                   = Return [ mkLine "Revenue" 620000 "Header";
                              mkLine "  Product Sales" 500000 "Detail";
                              mkLine "  Service Revenue" 120000 "Detail";
                              mkLine "Cost of Goods Sold" (-280000) "Header";
                              mkLine "Gross Profit" 340000 "Total";
                              mkLine "Operating Expenses" (-135000) "Header";
                              mkLine "Operating Income" 205000 "Total";
                              mkLine "Net Income" 165000 "Grand Total" ])
    by (rewrite <- Hbuild; reflexivity).
  injection Hlines as Hlines.
  cbv zeta in Hsums. destruct Hsums as (_ & _ & Hoperating & Hnet).
  assert (Hheaders : foldr Z.add 0 (LineAmount <$> filter (fun l => LineType l = "Header") lines)
                     = 205000) by (rewrite Hlines; reflexivity).
  split; [exact Hheaders |].
  split.
  - rewrite Hoperating; rewrite Hheaders; [reflexivity | fits_int64].
  - rewrite Hnet; rewrite Hheaders; [reflexivity | fits_int64].
Defined.

(** X2.  For every ledger with integer amounts, held in an [int64] column,
    Net Income is the sum of [Amount] over the rows whose Sub-Account is one of
    the eight that [structure] lists, as an [int64] holds it, and that sum
    itself when it is within the range: the four category totals are taken
    over disjoint sets of sub-accounts, so that no row is counted twice, and
    what the subtotals lose by wrapping around on the way does not change the
    last 64 bits. *)
Theorem net_income_is_total_of_listed_rows (rows : list TransactionRow) :
  int64_amounts rows ->
  exists t lines,
    calculate_totals (IncomeStatement.frame_of_rows rows) = Return t
    /\ build (IncomeStatement.frame_of_rows rows) = Return lines
    /\ net_income t = wrap64 (total_of rows listed_sub_accounts)
    /\ last lines
       = Some (mkLine "Net Income" (wrap64 (total_of rows listed_sub_accounts)) "Grand Total")
    /\ (in_int64 (total_of rows listed_sub_accounts) ->
        net_income t = total_of rows listed_sub_accounts).
Proof.
  intros _.
  assert (Hsum : total_of rows ["Product Sales"; "Service Revenue"]
                 + total_of rows ["Material Cost"; "Labor Cost"]
                 + total_of rows ["Marketing"; "R&D"; "G&A"]
                 + total_of rows ["Income Tax"]
                 = total_of rows listed_sub_accounts).
  { change listed_sub_accounts
      with ((["Product Sales"; "Service Revenue"] ++ ["Material Cost"; "Labor Cost"])
              ++ ["Marketing"; "R&D"; "G&A"] ++ ["Income Tax"])%list.
    rewrite (total_of_disjoint rows (_ ++ _)%list) by no_common_name.
    rewrite (total_of_disjoint rows ["Product Sales"; "Service Revenue"]
               ["Material Cost"; "Labor Cost"]) by no_common_name.
    rewrite (total_of_disjoint rows ["Marketing"; "R&D"; "G&A"] ["Income Tax"])
      by no_common_name.
    lia. }
  do 2 eexists. split; [apply calculate_totals_rows |].
  split; [apply build_statement_of |].
  cbn [net_income last]. rewrite <- Hsum.
  generalize (total_of rows ["Product Sales"; "Service Revenue"])
             (total_of rows ["Material Cost"; "Labor Cost"])
             (total_of rows ["Marketing"; "R&D"; "G&A"])
             (total_of rows ["Income Tax"]).
  intros R C O T.
  assert (Hnet : int64_add (int64_add (int64_add (wrap64 R) (wrap64 C)) (wrap64 O)) (wrap64 T)
                 = wrap64 (R + C + O + T)) by int64_lia.
  rewrite Hnet. split; [done |]. split; [done |].
  intros Hfits. by apply wrap64_in_range.
Qed.

(** On the sample data the eight rows add up to 165000. *)
Lemma net_income_is_total_of_listed_rows_witness :
  exists t,
    calculate_totals (IncomeStatement.frame_of_rows IncomeStatement.sample_rows) = Return t
    /\ total_of IncomeStatement.sample_rows listed_sub_accounts = 165000
    /\ net_income t = 165000.
Proof.
  destruct (net_income_is_total_of_listed_rows IncomeStatement.sample_rows)
    as (t & lines & Hrun & _ & _ & _ & Hexact); [all_fit_int64 |].
  exists t. split; [exact Hrun |]. split; [reflexivity |].
  rewrite Hexact; [reflexivity | fits_int64].
Defined.

(** X3.  Rows whose Sub-Account is none of the eight listed ones are left out
    silently: the statement and the report of a ledger are those of the ledger
    without these rows. *)
Theorem unlisted_rows_are_ignored (rows : list TransactionRow) (out : stdout) :
  let listed := filter (fun r => SubAccount r ∈ listed_sub_accounts) rows in
  build (IncomeStatement.frame_of_rows rows) = build (IncomeStatement.frame_of_rows listed)
  /\ IncomeStatement.main (IncomeStatement.frame_of_rows rows) out
     = IncomeStatement.main (IncomeStatement.frame_of_rows listed) out.
Proof.
  intros listed. subst listed.
  rewrite !statement_main_rows, !build_statement_of, statement_of_listed. done.
Qed.

(** X4.  For a ledger with integer amounts, held in an [int64] column, the
    statement does not depend on the order of the rows: sums in 64 bits are
    the same in every order, also when they wrap around.  (Sums of
    floating-point amounts are not, and are not covered.) *)
Theorem statement_ignores_the_order_of_rows (rows rows' : list TransactionRow)
    (out : stdout) :
  int64_amounts rows ->
  rows ≡ₚ rows' ->
  build (IncomeStatement.frame_of_rows rows) = build (IncomeStatement.frame_of_rows rows')
  /\ IncomeStatement.main (IncomeStatement.frame_of_rows rows) out
     = IncomeStatement.main (IncomeStatement.frame_of_rows rows') out.
Proof.
  intros _ Hperm.
  rewrite !statement_main_rows, !build_statement_of.
  by rewrite !(total_of_Permutation rows rows' _ Hperm).
Qed.

Lemma statement_ignores_the_order_of_rows_witness :
  let sale := mkTransaction "Revenue" "Product Sales" 900 "2023-Q1" in
  let wages := mkTransaction "COGS" "Labor Cost" (-400) "2023-Q1" in
  let tax := mkTransaction "Tax" "Income Tax" (-100) "2023-Q1" in
  build (IncomeStatement.frame_of_rows [sale; wages; tax])
  = build (IncomeStatement.frame_of_rows [wages; sale; tax])
  /\ IncomeStatement.main (IncomeStatement.frame_of_rows [sale; wages; tax]) []
     = IncomeStatement.main (IncomeStatement.frame_of_rows [wages; sale; tax]) [].
Proof.
  intros sale wages tax.
  apply (statement_ignores_the_order_of_rows [sale; wages; tax] [wages; sale; tax] []).
  - all_fit_int64.
  - apply perm_swap.
Defined.

(** X5.  For two ledgers with integer amounts, held in [int64] columns, the
    statement of the two put together has, line by line, the sum in 64 bits of
    the amounts of their two statements, under the same labels: the sum itself
    where it is within the range on every line. *)
Theorem statement_of_joined_ledgers_adds_up (rows1 rows2 : list TransactionRow) :
  int64_amounts rows1 ->
  int64_amounts rows2 ->
  exists lines1 lines2 joined,
    build (IncomeStatement.frame_of_rows rows1) = Return lines1
    /\ build (IncomeStatement.frame_of_rows rows2) = Return lines2
    /\ build (IncomeStatement.frame_of_rows (rows1 ++ rows2)) = Return joined
    /\ LineAmount <$> joined
       = zip_with int64_add (LineAmount <$> lines1) (LineAmount <$> lines2)
    /\ (Forall in_int64 (zip_with Z.add (LineAmount <$> lines1) (LineAmount <$> lines2)) ->
        LineAmount <$> joined
        = zip_with Z.add (LineAmount <$> lines1) (LineAmount <$> lines2))
    /\ LineItem <$> joined = LineItem <$> lines1
    /\ LineType <$> joined = LineType <$> lines1.
Proof.
  intros _ _.
  do 3 eexists. repeat (split; [apply build_statement_of |]).
  assert (Hsum : LineAmount <$> statement_of (rows1 ++ rows2)%list
                 = zip_with int64_add (LineAmount <$> statement_of rows1)
                                      (LineAmount <$> statement_of rows2)).
  { cbn [fmap list_fmap zip_with LineAmount].
    rewrite !total_of_app.
    generalize (total_of rows1 ["Product Sales"; "Service Revenue"])
               (total_of rows1 ["Product Sales"]) (total_of rows1 ["Service Revenue"])
               (total_of rows1 ["Material Cost"; "Labor Cost"])
               (total_of rows1 ["Marketing"; "R&D"; "G&A"])
               (total_of rows1 ["Income Tax"])
               (total_of rows2 ["Product Sales"; "Service Revenue"])
               (total_of rows2 ["Product Sales"]) (total_of rows2 ["Service Revenue"])
               (total_of rows2 ["Material Cost"; "Labor Cost"])
               (total_of rows2 ["Marketing"; "R&D"; "G&A"])
               (total_of rows2 ["Income Tax"]).
    intros R1 P1 S1 C1 O1 T1 R2 P2 S2 C2 O2 T2.
    repeat (apply (f_equal2 cons); [int64_lia |]). reflexivity. }
  split; [exact Hsum |]. split; [| done].
  intros Hfits. rewrite Hsum. by apply zip_with_int64_add_exact.
Qed.

(** The sample ledger put together with a ledger of one more sale. *)
Lemma statement_of_joined_ledgers_adds_up_witness :
  let more := [mkTransaction "Revenue" "Product Sales" 1000 "2023-Q2"] in
  exists joined,
    build (IncomeStatement.frame_of_rows (IncomeStatement.sample_rows ++ more)) = Return joined
    /\ LineAmount <$> joined = [621000; 501000; 120000; -280000; 341000; -135000; 206000; 166000].
Proof.
  intros more.
  destruct (statement_of_joined_ledgers_adds_up IncomeStatement.sample_rows more)
    as (lines1 & lines2 & joined & H1 & H2 & Hjoined & _ & Hexact & _);
    [all_fit_int64 | all_fit_int64 |].
  exists joined. split; [exact Hjoined |].
  assert (Hlines1 : Return lines1
                    = Return [ mkLine "Revenue" 620000 "Header";
                               mkLine "  Product Sales" 500000 "Detail";
                               mkLine "  Service Revenue" 120000 "Detail";
                               mkLine "Cost of Goods Sold" (-280000) "Header";
                               mkLine "Gross Profit" 340000 "Total";
                               mkLine "Operating Expenses" (-135000) "Header";
                               mkLine "Operating Income" 205000 "Total";
                               mkLine "Net Income" 165000 "Grand Total" ])
    by (rewrite <- H1; reflexivity).
  assert (Hlines2 : Return lines2
                    = Return [ mkLine "Revenue" 1000 "Header";
                               mkLine "  Product Sales" 1000 "Detail";
                               mkLine "  Service Revenue" 0 "Detail";
                               mkLine "Cost of Goods Sold" 0 "Header";
                               mkLine "Gross Profit" 1000 "Total";
                               mkLine "Operating Expenses" 0 "Header";
                               mkLine "Operating Income" 1000 "Total";
                               mkLine "Net Income" 1000 "Grand Total" ])
    by (rewrite <- H2; reflexivity).
  injection Hlines1 as ->. injection Hlines2 as ->.
  rewrite Hexact; [reflexivity |].
  cbn [fmap list_fmap zip_with LineAmount].
  repeat (apply Forall_cons_2; [fits_int64 |]). apply Forall_nil_2.
Defined.

(** X6.  For a ledger with integer amounts, held in an [int64] column,
    [get_total] depends on the set of sub-accounts it is given, not on their
    order or on repetitions in the list; and the total of the union of two
    sets with no sub-account in common is the sum in 64 bits of their totals:
    the sum itself when that is within the range. *)
Theorem get_total_of_a_set_of_sub_accounts (rows : list TransactionRow)
    (subs1 subs2 : list string) :
  int64_amounts rows ->
  let df := IncomeStatement.frame_of_rows rows in
  ((forall x, x ∈ subs1 <-> x ∈ subs2) -> get_total df subs1 = get_total df subs2)
  /\ ((forall x, x ∈ subs1 -> x ∉ subs2) ->
      exists t1 t2,
        get_total df subs1 = Return t1
        /\ get_total df subs2 = Return t2
        /\ get_total df (subs1 ++ subs2) = Return (int64_add t1 t2)
        /\ (in_int64 (t1 + t2) -> get_total df (subs1 ++ subs2) = Return (t1 + t2))).
Proof.
  intros _ df. subst df. split.
  - intros Hset. by rewrite !get_total_rows, (total_of_same_set rows subs1 subs2).
  - intros Hdisjoint. do 2 eexists.
    rewrite !get_total_rows, total_of_disjoint by done.
    rewrite <- int64_add_wraps.
    split; [done |]. split; [done |]. split; [done |].
    intros Hfits. f_equal. by apply wrap64_in_range.
Qed.

Lemma get_total_of_a_set_of_sub_accounts_witness :
  let df := IncomeStatement.frame_of_rows IncomeStatement.sample_rows in
  get_total df ["R&D"; "G&A"; "R&D"] = get_total df ["G&A"; "R&D"]
  /\ get_total df ["R&D"] = Return (-60000)
  /\ get_total df ["G&A"; "Marketing"] = Return (-75000)
  /\ get_total df ["R&D"; "G&A"; "Marketing"] = Return (-135000).
Proof.
  intros df.
  destruct (get_total_of_a_set_of_sub_accounts IncomeStatement.sample_rows
              ["R&D"; "G&A"; "R&D"] ["G&A"; "R&D"]) as [Hset _]; [all_fit_int64 |].
  destruct (get_total_of_a_set_of_sub_accounts IncomeStatement.sample_rows
              ["R&D"] ["G&A"; "Marketing"]) as [_ Hsum]; [all_fit_int64 |].
  split.
  - apply Hset. intros x. rewrite !elem_of_cons, !elem_of_nil. tauto.
  - destruct Hsum as (t1 & t2 & H1 & H2 & _ & Hexact); [no_common_name |].
    assert (Ht1 : Return t1 = Return (-60000)) by (rewrite <- H1; reflexivity).
    assert (Ht2 : Return t2 = Return (-75000)) by (rewrite <- H2; reflexivity).
    injection Ht1 as ->. injection Ht2 as ->.
    split; [exact H1 |]. split; [exact H2 |].
    apply Hexact. fits_int64.
Defined.

(** X7.  A ledger with no row of a listed sub-account, the empty ledger among
    them, gives no error: the report is the statement with every amount
    zero. *)
Theorem ledger_without_listed_rows_prints_zeros (rows : list TransactionRow) :
  (forall r, r ∈ rows -> SubAccount r ∉ listed_sub_accounts) ->
  outcome (IncomeStatement.main (IncomeStatement.frame_of_rows rows)) = Return tt
  /\ printed (IncomeStatement.main (IncomeStatement.frame_of_rows rows))
     = [ "Income Statement (2023-Q1)";
         "----------------------------------------";
         "Revenue                             $0.00";
         "  Product Sales                     $0.00";
         "  Service Revenue                   $0.00";
         "Cost of Goods Sold                  $0.00";
         "Gross Profit                        $0.00";
         "----------------------------------------";
         "Operating Expenses                  $0.00";
         "Operating Income                    $0.00";
         "----------------------------------------";
         "Net Income                          $0.00";
         "========================================" ].
Proof.
  intros Hnone.
  assert (Hfilter : filter (fun r => SubAccount r ∈ listed_sub_accounts) rows = []).
  { induction rows as [| r rows IH]; [done |].
    rewrite filter_cons, decide_False by (apply Hnone; left).
    apply IH. intros r' Hr'. apply Hnone. by right. }
  unfold outcome, printed.
  rewrite statement_main_rows, <- statement_of_listed, Hfilter.
  split; reflexivity.
Qed.

Lemma ledger_without_listed_rows_prints_zeros_witness :
  outcome (IncomeStatement.main
             (IncomeStatement.frame_of_rows
                [mkTransaction "Other" "Interest Income" 1200 "2023-Q1"]))
  = Return tt
  /\ nth_error (printed (IncomeStatement.main
                           (IncomeStatement.frame_of_rows
                              [mkTransaction "Other" "Interest Income" 1200 "2023-Q1"]))) 11
     = Some "Net Income                          $0.00".
Proof.
  destruct (ledger_without_listed_rows_prints_zeros
              [mkTransaction "Other" "Interest Income" 1200 "2023-Q1"]) as [Hok Hprinted].
  - intros r Hr. apply list_elem_of_singleton in Hr as ->.
    cbn [SubAccount]. rewrite !not_elem_of_cons. repeat split; try discriminate.
    apply not_elem_of_nil.
  - split; [exact Hok |]. rewrite Hprinted. reflexivity.
Defined.

(* ===================================================================== *)
(** * Widths of the printed lines, and frames that lack a column          *)
(* ===================================================================== *)

Section Widths.

Lemma string_length_app (s1 s2 : string) :
  String.length (s1 ++ s2) = (String.length s1 + String.length s2)%nat.
Proof.
  induction s1 as [| a s1 IH]; [done |].
  change (String a s1 ++ s2) with (String a (s1 ++ s2)). cbn [String.length]. by rewrite IH.
Qed.

Lemma str_mul_length (s : string) (n : nat) :
  String.length (str_mul s n) = (n * String.length s)%nat.
Proof.
  induction n as [| n IH]; [done |].
  cbn [str_mul]. rewrite string_length_app, IH. lia.
Qed.

(** Padding never cuts a string: the result has the width asked for, or the
    length of the string when that is more. *)
Lemma ljust_length (w : nat) (s : string) :
  String.length (ljust w s) = Nat.max w (String.length s).
Proof.
  unfold ljust. rewrite string_length_app, str_mul_length. cbn [String.length]. lia.
Qed.

Lemma rjust_length (w : nat) (s : string) :
  String.length (rjust w s) = Nat.max w (String.length s).
Proof.
  unfold rjust. rewrite string_length_app, str_mul_length. cbn [String.length]. lia.
Qed.

(** A string that fills the width is left as it is. *)
Lemma rjust_wide (w : nat) (s : string) :
  (w <= String.length s)%nat -> rjust w s = s.
Proof.
  intros Hw. unfold rjust.
  by replace (w - String.length s)%nat with 0%nat by lia.
Qed.

End Widths.

(** X8.  A line of the statement is the label padded to 25 columns, a blank
    and the amount padded to 15: 41 characters when both fit, more when the
    label or the amount is longer, since padding does not cut.  The rules are
    40 characters, so every line of the statement is wider than the rules
    printed under it. *)
Theorem statement_lines_are_wider_than_the_rules (row : StatementLine) :
  String.length (item_text row)
  = (Nat.max 25 (String.length (LineItem row)) + 1
     + Nat.max 15 (String.length (amount_str row)))%nat
  /\ (String.length (LineItem row) <= 25 -> String.length (amount_str row) <= 15 ->
      String.length (item_text row) = 41)%nat
  /\ (forall line, line ∈ row_lines row ->
        line = item_text row \/ String.length line = 40%nat)
  /\ (40 < String.length (item_text row))%nat.
Proof.
  assert (Hlen : String.length (item_text row)
                 = (Nat.max 25 (String.length (LineItem row)) + 1
                    + Nat.max 15 (String.length (amount_str row)))%nat).
  { unfold item_text, label_width, amount_width.
    rewrite !string_length_app, ljust_length, rjust_length. cbn [String.length]. lia. }
  split; [exact Hlen |]. split; [lia |]. split; [| lia].
  intros line. unfold row_lines. rewrite elem_of_cons.
  intros [-> | Hrule]; [by left | right].
  repeat case_bool_decide;
    first [ apply list_elem_of_singleton in Hrule as -> | by apply elem_of_nil in Hrule ];
    by rewrite str_mul_length.
Qed.

Lemma statement_lines_are_wider_than_the_rules_witness :
  String.length (item_text (mkLine "Gross Profit" 340000 "Total")) = 41%nat
  /\ row_lines (mkLine "Gross Profit" 340000 "Total")
     = [ "Gross Profit                  $340,000.00";
         "----------------------------------------" ].
Proof.
  destruct (statement_lines_are_wider_than_the_rules (mkLine "Gross Profit" 340000 "Total"))
    as (_ & Hfits & _).
  split; [| reflexivity].
  apply Hfits; vm_compute; lia.
Defined.

Section MissingColumns.

Implicit Types (df : DataFrame) (sub_accounts : list string).

Lemma isin_length (s : Series) (values : list string) :
  length (isin s values) = series_len s.
Proof. destruct s; cbn; by rewrite length_fmap. Qed.

Lemma get_total_without_sub_account df sub_accounts :
  columns df !! "Sub-Account" = None ->
  get_total df sub_accounts = Raise (KeyError "Sub-Account").
Proof. intros H. unfold get_total, getitem. by rewrite H. Qed.

Lemma get_total_without_amount df (subs : Series) sub_accounts :
  columns df !! "Sub-Account" = Some subs ->
  series_len subs = nrows df ->
  columns df !! "Amount" = None ->
  get_total df sub_accounts = Raise (KeyError "Amount").
Proof.
  intros Hsub Hlen Hamt. unfold get_total, getitem. rewrite Hsub.
  cbn [mbind result_bind]. unfold boolean_index.
  rewrite decide_True by (by rewrite isin_length).
  cbn [mbind result_bind columns]. by rewrite lookup_fmap, Hamt.
Qed.

End MissingColumns.

(** X9.  A frame without the Sub-Account column, or with it and without the
    Amount column, makes the script raise [KeyError] with the name of the
    missing column at the first total, before anything is printed. *)
Theorem statement_needs_sub_account_and_amount (df : DataFrame) (out : stdout) :
  (columns df !! "Sub-Account" = None ->
   IncomeStatement.main df out = (Raise (KeyError "Sub-Account"), out))
  /\ (forall subs,
        columns df !! "Sub-Account" = Some subs ->
        series_len subs = nrows df ->
        columns df !! "Amount" = None ->
        IncomeStatement.main df out = (Raise (KeyError "Amount"), out)).
Proof.
  split.
  - intros Hsub. rewrite main_prints. unfold build, calculate_totals, dict_get.
    destruct structure_items as (-> & _). cbn [mbind result_bind].
    by rewrite get_total_without_sub_account.
  - intros subs Hsub Hlen Hamt. rewrite main_prints. unfold build, calculate_totals, dict_get.
    destruct structure_items as (-> & _). cbn [mbind result_bind].
    by rewrite (get_total_without_amount df subs).
Qed.

Lemma statement_needs_sub_account_and_amount_witness :
  let renamed :=
    mkDataFrame 2 (<["Amount" := ColInt [500; -200]]>
                   (<["Category" := ColStr ["Product Sales"; "Labor Cost"]]> ∅)) in
  let unpriced :=
    mkDataFrame 2 (<["Sub-Account" := ColStr ["Product Sales"; "Labor Cost"]]> ∅) in
  IncomeStatement.main renamed [] = (Raise (KeyError "Sub-Account"), [])
  /\ IncomeStatement.main unpriced [] = (Raise (KeyError "Amount"), []).
Proof.
  intros renamed unpriced. split.
  - destruct (statement_needs_sub_account_and_amount renamed []) as [Hsub _].
    apply Hsub. reflexivity.
  - destruct (statement_needs_sub_account_and_amount unpriced []) as [_ Hamt].
    apply (Hamt (ColStr ["Product Sales"; "Labor Cost"])); reflexivity.
Defined.

(* ===================================================================== *)
(** * The variance analysis on any frame                                  *)
(* ===================================================================== *)

(** The head of the variance report. *)
Abbreviation report_head :=
  ["Variance Analysis Report"; str_mul "=" 60; header; str_mul "-" 60].

Section AnyFrame.

Implicit Types (df finished : DataFrame) (c : string).

Lemma setitem_Return df c (s : Series) df' :
  setitem df c s = Return df' ->
  series_len s = nrows df /\ df' = mkDataFrame (nrows df) (<[c := s]> (columns df)).
Proof. unfold setitem. case_decide; [| done]. by intros [= <-]. Qed.

Lemma getitem_Return df c (s : Series) :
  getitem df c = Return s -> columns df !! c = Some s.
Proof. unfold getitem. destruct (columns df !! c); [| done]. by intros [= ->]. Qed.

(** The three assignments, when they succeed: the columns they read, the
    columns they compute and the frame they leave. *)
Lemma calculate_Return df finished :
  calculate df = Return finished ->
  exists a b d q f,
    columns df !! "Actual" = Some a
    /\ columns df !! "Budget" = Some b
    /\ series_sub a b = Return d
    /\ series_truediv d b = Return q
    /\ apply_status (series_mul q 100) = Return f
    /\ series_len d = nrows df
    /\ series_len (series_mul q 100) = nrows df
    /\ series_len f = nrows df
    /\ finished
       = mkDataFrame (nrows df)
           (<["Status" := f]>
            (<["Variance (%)" := series_mul q 100]>
             (<["Variance ($)" := d]> (columns df)))).
Proof.
  intros Hrun. unfold calculate in Hrun.
  repeat match type of Hrun with
         | (?m ≫= _) = Return _ =>
             let H := fresh "Hstep" in
             destruct m eqn:H; [cbn [mbind result_bind] in Hrun | discriminate Hrun]
         end.
  repeat match goal with
         | H : setitem _ _ _ = Return _ |- _ => apply setitem_Return in H as [? ->]
         | H : getitem _ _ = Return _ |- _ => apply getitem_Return in H
         end.
  cbn [columns nrows] in *.
  repeat match goal with
         | H : <[?k := _]> _ !! ?k = Some _ |- _ =>
             rewrite lookup_insert_eq in H; injection H as <-
         | H : <[_ := _]> _ !! _ = Some _ |- _ => rewrite lookup_insert_ne in H by done
         end.
  repeat match goal with
         | H1 : columns df !! ?k = Some ?x, H2 : columns df !! ?k = Some ?y |- _ =>
             rewrite H1 in H2; injection H2 as <-
         end.
  eauto 15.
Qed.

Lemma calculate_runs df (a b d q f : Series) :
  columns df !! "Actual" = Some a ->
  columns df !! "Budget" = Some b ->
  series_sub a b = Return d ->
  series_truediv d b = Return q ->
  apply_status (series_mul q 100) = Return f ->
  series_len d = nrows df ->
  series_len (series_mul q 100) = nrows df ->
  series_len f = nrows df ->
  calculate df
  = Return (mkDataFrame (nrows df)
              (<["Status" := f]>
               (<["Variance (%)" := series_mul q 100]>
                (<["Variance ($)" := d]> (columns df))))).
Proof.
  intros Ha Hb Hd Hq Hf Hld Hlq Hlf. unfold calculate, getitem.
  rewrite Ha, Hb. cbn [mbind result_bind]. rewrite Hd. cbn [mbind result_bind].
  rewrite setitem_fits by done. cbn [mbind result_bind columns].
  rewrite lookup_insert_eq. cbn [mbind result_bind].
  rewrite lookup_insert_ne, Hb by done. cbn [mbind result_bind].
  rewrite Hq. cbn [mbind result_bind].
  rewrite setitem_fits by done. cbn [mbind result_bind columns nrows].
  rewrite lookup_insert_eq. cbn [mbind result_bind].
  rewrite Hf. cbn [mbind result_bind].
  by rewrite setitem_fits.
Qed.

End AnyFrame.

(** X10.  On any well-formed frame on which they succeed, the three
    assignments leave a well-formed frame with the same index.  In it
    Variance (%) is a float column, Status is the column of the statuses of
    its entries, Variance ($) exists, and every other column is as it was. *)
Theorem calculate_keeps_the_frame_well_formed (df finished : DataFrame) :
  calculate df = Return finished ->
  wf df ->
  wf finished
  /\ nrows finished = nrows df
  /\ (exists percents,
        columns finished !! "Variance (%)" = Some (ColFloat percents)
        /\ columns finished !! "Status" = Some (ColStr (status_of <$> percents))
        /\ is_Some (columns finished !! "Variance ($)"))
  /\ (forall c, c ∉ ["Variance ($)"; "Variance (%)"; "Status"] ->
        columns finished !! c = columns df !! c).
Proof.
  intros Hrun Hwf.
  destruct (calculate_Return df finished Hrun)
    as (a & b & d & q & f & _ & _ & _ & Hq & Hf & Hld & Hlq & Hlf & Hfinished).
  split; [| split; [by subst | split]].
  - subst finished. intros c s. cbn [columns nrows]. intros Hc.
    repeat (apply lookup_insert_Some in Hc as [[_ <-] | [_ Hc]]; [done |]).
    by apply (Hwf c).
  - unfold series_truediv in Hq.
    destruct (to_floats d) as [x |]; [| done].
    destruct (to_floats b) as [y |]; [| done].
    cbn [mbind result_bind] in Hq. injection Hq as <-.
    cbn [series_mul apply_status] in Hf. injection Hf as <-.
    subst finished. cbn [columns]. eexists. split; [| split].
    + rewrite lookup_insert_ne by done. apply lookup_insert_eq.
    + apply lookup_insert_eq.
    + rewrite !lookup_insert_ne by done. rewrite lookup_insert_eq. by eexists.
  - intros c Hc. by apply (calculate_only_assigns_three_columns df _ c Hrun).
Qed.

Lemma calculate_keeps_the_frame_well_formed_witness :
  let df :=
    mkDataFrame 2 (<["Owner" := ColStr ["Ann"; "Raj"]]>
                   (columns (VarianceAnalysis.frame_of_rows
                               [mkBudgetRow "Sales" 120 100; mkBudgetRow "HR" 20 20]))) in
  exists finished,
    calculate df = Return finished
    /\ nrows finished = 2%nat
    /\ columns finished !! "Owner" = Some (ColStr ["Ann"; "Raj"])
    /\ columns finished !! "Status" = Some (ColStr ["Red"; "Yellow"]).
Proof.
  intros df.
  assert (Hrun : calculate df
                 = Return (mkDataFrame 2
                             (<["Status" := ColStr ["Red"; "Yellow"]]>
                              (<["Variance (%)" := ColFloat [float_of_int 20; S754_zero false]]>
                               (<["Variance ($)" := ColInt [20; 0]]> (columns df))))))
    by reflexivity.
  assert (Hwf : wf df).
  { intros c s. unfold df, VarianceAnalysis.frame_of_rows. cbn [columns nrows]. intros Hc.
    repeat (apply lookup_insert_Some in Hc as [[_ <-] | [_ Hc]]; [done |]).
    by rewrite lookup_empty in Hc. }
  destruct (calculate_keeps_the_frame_well_formed df _ Hrun Hwf) as (_ & Hn & _ & Hother).
  eexists. split; [exact Hrun |]. split; [exact Hn |]. split; [| reflexivity].
  rewrite Hother; [reflexivity |].
  rewrite !not_elem_of_cons. repeat split; try discriminate. apply not_elem_of_nil.
Defined.

(** X11.  Running the three assignments again on the frame they left changes
    nothing: they read only Actual and Budget, which they do not assign, and
    recompute the same three columns. *)
Theorem calculate_twice_is_calculate_once (df finished : DataFrame) :
  calculate df = Return finished -> calculate finished = Return finished.
Proof.
  intros Hrun.
  destruct (calculate_Return df finished Hrun)
    as (a & b & d & q & f & Ha & Hb & Hd & Hq & Hf & Hld & Hlq & Hlf & ->).
  rewrite (calculate_runs _ a b d q f); cbn [columns nrows]; try done.
  - f_equal. f_equal. apply map_eq. intros k.
    destruct (decide (k = "Status")) as [-> | H3];
      [| destruct (decide (k = "Variance (%)")) as [-> | H2];
         [| destruct (decide (k = "Variance ($)")) as [-> | H1]]];
      repeat first [rewrite lookup_insert_eq | rewrite lookup_insert_ne by done];
      done.
  - by rewrite !lookup_insert_ne.
  - by rewrite !lookup_insert_ne.
Qed.

Lemma calculate_twice_is_calculate_once_witness :
  exists finished,
    calculate (VarianceAnalysis.frame_of_rows VarianceAnalysis.sample_rows) = Return finished
    /\ calculate finished = Return finished.
Proof.
  eexists. split; [apply calculate_rows |].
  apply (calculate_twice_is_calculate_once
           (VarianceAnalysis.frame_of_rows VarianceAnalysis.sample_rows)).
  apply calculate_rows.
Defined.

(** X12.  A frame without the Actual column, or with it and without the
    Budget column, makes the script raise [KeyError] with the name of the
    missing column at the first assignment, before anything is printed. *)
Theorem variance_needs_actual_and_budget (df : DataFrame) (out : stdout) :
  (columns df !! "Actual" = None ->
   VarianceAnalysis.main df out = (Raise (KeyError "Actual"), out))
  /\ (is_Some (columns df !! "Actual") ->
      columns df !! "Budget" = None ->
      VarianceAnalysis.main df out = (Raise (KeyError "Budget"), out)).
Proof.
  split.
  - intros Ha. rewrite variance_main_prints. unfold calculate, getitem. by rewrite Ha.
  - intros [a Ha] Hb. rewrite variance_main_prints. unfold calculate, getitem.
    by rewrite Ha, Hb.
Qed.

Lemma variance_needs_actual_and_budget_witness :
  let spent := mkDataFrame 1 (<["Spent" := ColInt [120]]> (<["Budget" := ColInt [100]]> ∅)) in
  let unplanned := mkDataFrame 1 (<["Actual" := ColInt [120]]> ∅) in
  VarianceAnalysis.main spent [] = (Raise (KeyError "Actual"), [])
  /\ VarianceAnalysis.main unplanned [] = (Raise (KeyError "Budget"), []).
Proof.
  intros spent unplanned. split.
  - destruct (variance_needs_actual_and_budget spent []) as [Hactual _].
    apply Hactual. reflexivity.
  - destruct (variance_needs_actual_and_budget unplanned []) as [_ Hbudget].
    apply Hbudget; [by eexists | reflexivity].
Defined.

(** X13.  A frame that passes the three assignments but has no Department
    column makes the script print the four lines of the head and then raise
    [KeyError] at the first row of the loop.  The frame is to have at least
    one row: the column is read in the body of the loop, which a frame without
    rows does not enter. *)
Theorem report_without_department_stops_after_the_head (df finished : DataFrame)
    (out : stdout) :
  calculate df = Return finished ->
  (0 < nrows df)%nat ->
  columns df !! "Department" = None ->
  VarianceAnalysis.main df out = (Raise (KeyError "Department"), (out ++ report_head)%list).
Proof.
  intros Hrun Hrows Hdept. rewrite variance_main_prints, Hrun.
  destruct (calculate_only_assigns_three_columns df finished "Department" Hrun)
    as [Hn Hsame].
  { rewrite !not_elem_of_cons. repeat split; try discriminate. apply not_elem_of_nil. }
  unfold VarianceAnalysis.iterrows. rewrite decide_False by lia.
  unfold get_str, getitem. by rewrite Hsame, Hdept.
Qed.

Lemma report_without_department_stops_after_the_head_witness :
  let df := mkDataFrame 1 (<["Budget" := ColInt [100]]> (<["Actual" := ColInt [120]]> ∅)) in
  VarianceAnalysis.main df []
  = (Raise (KeyError "Department"),
     [ "Variance Analysis Report";
       "============================================================";
       "Department          Actual     Budget    Var ($)    Var (%)   Status";
       "------------------------------------------------------------" ]).
Proof.
  intros df.
  apply (report_without_department_stops_after_the_head df
           (mkDataFrame 1
              (<["Status" := ColStr ["Red"]]>
               (<["Variance (%)" := ColFloat [float_of_int 20]]>
                (<["Variance ($)" := ColInt [20]]> (columns df))))) []).
  - reflexivity.
  - cbn. lia.
  - reflexivity.
Defined.

(** X14.  In a line of the variance report the first [rjust(10)] does
    nothing: it is applied to the department column and the actual figure
    together, which are more than 10 characters.  The actual figure follows
    the department column unpadded, so that for a department of at most 15
    characters the first two columns of the line are narrower than those of
    the header (26 characters) whenever the figure with its dollar sign has
    less than 10 characters, and wider when it has more. *)
Theorem actual_figure_is_not_padded (row : DepartmentVariance) :
  let figure := "$" ++ format_int_f true 0 (actual row) in
  let first := ljust 15 (department row) ++ " " ++ figure in
  row_text row
  = first ++ " "
    ++ rjust 10 ("$" ++ format_int_f true 0 (budget row)) ++ " "
    ++ rjust 10 ("$" ++ format_int_f true 0 (varianceAbsolute row)) ++ " "
    ++ rjust 10 (format_f false 1 (variancePercent row) ++ "%") ++ " "
    ++ rjust 8 (status row)
  /\ String.length first
     = (Nat.max 15 (String.length (department row)) + 1 + String.length figure)%nat
  /\ String.length (ljust 15 "Department" ++ " " ++ rjust 10 "Actual") = 26%nat
  /\ ((String.length (department row) <= 15)%nat ->
      String.length first = (16 + String.length figure)%nat).
Proof.
  intros figure first.
  assert (Hlen : String.length first
                 = (Nat.max 15 (String.length (department row)) + 1
                    + String.length figure)%nat).
  { unfold first. rewrite !string_length_app, ljust_length. cbn [String.length]. lia. }
  split; [| split; [exact Hlen | split; [reflexivity | lia]]].
  unfold row_text. subst first figure.
  rewrite rjust_wide by lia. reflexivity.
Qed.

Lemma actual_figure_is_not_padded_witness :
  row_text (mkVariance "Sales" 120000 100000 20000 (float_of_int 20) "Red")
  = "Sales           $120,000   $100,000    $20,000      20.0%      Red"
  /\ String.length ("Sales           $120,000") = 24%nat.
Proof.
  destruct (actual_figure_is_not_padded
              (mkVariance "Sales" 120000 100000 20000 (float_of_int 20) "Red"))
    as (Htext & _ & _ & Hshort).
  split; [rewrite Htext; reflexivity |].
  specialize (Hshort ltac:(cbn; lia)). exact Hshort.
Defined.

(* ===================================================================== *)
(** * The sign of the percentage                                          *)
(* ===================================================================== *)

(** A number that is not on the other side of zero than the sign [s]: a zero,
    not-a-number, or a finite number or an infinity of sign [s]. *)
Abbreviation on_side s x :=
  (match x with
   | S754_finite s' _ _ | S754_infinity s' => s' = s
   | S754_zero _ | S754_nan => True
   end).

(** A number of sign [s] that is not a zero. *)
Abbreviation strictly_on_side s x :=
  (match x with
   | S754_finite s' _ _ | S754_infinity s' => s' = s
   | S754_zero _ | S754_nan => False
   end).

Section Signs.

Lemma shr_fexp_nonneg m e l :
  0 <= m -> 0 <= shr_m (fst (shr_fexp prec64 emax64 m e l)).
Proof.
  intros Hm. unfold shr_fexp, shr.
  destruct (fexp prec64 emax64 (Zdigits2 m + e) - e) as [| q | q];
    cbn [fst]; rewrite ?shr_m_of_loc; try lia.
  rewrite iter_shr_1 by (rewrite shr_m_of_loc; lia).
  rewrite shr_m_of_loc. apply Z.div_pos; lia.
Qed.

(** Rounding keeps the sign it is given. *)
Lemma binary_round_aux_side sx mx ex lx :
  0 <= mx -> on_side sx (binary_round_aux prec64 emax64 sx mx ex lx).
Proof.
  intros Hm. unfold binary_round_aux.
  pose proof (shr_fexp_nonneg mx ex lx Hm) as H1.
  destruct (shr_fexp prec64 emax64 mx ex lx) as [mrs' e']. cbn [fst] in H1.
  pose proof (round_nearest_even_ge (shr_m mrs') (loc_of_shr_record mrs')) as Hr.
  pose proof (shr_fexp_nonneg (round_nearest_even (shr_m mrs') (loc_of_shr_record mrs'))
                e' loc_Exact ltac:(lia)) as H2.
  destruct (shr_fexp prec64 emax64 _ e' loc_Exact) as [mrs'' e'']. cbn [fst] in H2.
  destruct (shr_m mrs'') as [| p | p]; [done | | lia].
  by destruct (Z.leb e'' (emax64 - prec64)).
Qed.

Lemma SFdiv_core_binary_nonneg (mx my : positive) (ex ey : Z) :
  0 <= fst (fst (SFdiv_core_binary prec64 emax64 (Z.pos mx) ex (Z.pos my) ey)).
Proof.
  unfold SFdiv_core_binary.
  set (s := _ - _ - Z.min _ _).
  set (m' := match s with Z.pos _ => Z.shiftl (Z.pos mx) s | 0 => Z.pos mx | Z.neg _ => 0 end).
  assert (Hm' : 0 <= m').
  { subst m'. destruct s; [lia | | lia]. apply Z.shiftl_nonneg. lia. }
  pose proof (Z.div_pos m' (Z.pos my) Hm' ltac:(lia)) as Hq.
  unfold Z.div in Hq.
  by destruct (Z.div_eucl m' (Z.pos my)) as [q r].
Qed.

Lemma float_of_int_side (z : Z) : on_side (z <? 0)%Z (float_of_int z).
Proof.
  destruct (decide (z = 0)) as [-> | Hz]; [done |].
  by destruct (float_of_int_sign z Hz) as [(m & e & ->) | ->].
Qed.

Lemma float_of_int_strictly_on_side (z : Z) :
  z <> 0 -> strictly_on_side (z <? 0)%Z (float_of_int z).
Proof. intros Hz. by destruct (float_of_int_sign z Hz) as [(m & e & ->) | ->]. Qed.

(** The quotient by a number that is not zero lies on the side the two signs
    give. *)
Lemma fdiv_side (sx sy : bool) (x y : float64) :
  on_side sx x -> strictly_on_side sy y -> on_side (xorb sx sy) (fdiv x y).
Proof.
  destruct x as [sx' | sx' | | sx' mx ex], y as [sy' | sy' | | sy' my ey];
    cbn; try done; try (by intros -> ->).
  intros -> ->.
  pose proof (SFdiv_core_binary_nonneg mx my ex ey) as Hq.
  destruct (SFdiv_core_binary prec64 emax64 (Z.pos mx) ex (Z.pos my) ey) as [[mz ez] lz].
  by apply binary_round_aux_side.
Qed.

Lemma fmul_side (sx sy : bool) (x y : float64) :
  on_side sx x -> strictly_on_side sy y -> on_side (xorb sx sy) (fmul x y).
Proof.
  destruct x as [sx' | sx' | | sx' mx ex], y as [sy' | sy' | | sy' my ey];
    cbn; try done; try (by intros -> ->).
  intros -> ->. by apply binary_round_aux_side.
Qed.

(** The percentage of a row lies on the side of zero that the signs of the
    variance and of the budget give. *)
Lemma percent_side (row : BudgetRow) :
  Budget row <> 0 ->
  on_side (xorb (difference_of row <? 0)%Z (Budget row <? 0)%Z) (percent_of row).
Proof.
  intros Hb.
  rewrite <- (xorb_false_r (xorb _ _)).
  apply fmul_side; [| done].
  apply fdiv_side; [apply float_of_int_side | by apply float_of_int_strictly_on_side].
Qed.

Lemma not_red_on_negative_side (x : float64) : on_side true x -> status_of x <> "Red".
Proof.
  intros Hx. unfold status_of.
  assert (Hlt : flt (float_of_int 10) x = false).
  { destruct x as [s | s | | s m e]; try done; by simplify_eq. }
  rewrite Hlt. by destruct (flt x (float_of_int (-10))).
Qed.

Lemma not_green_on_positive_side (x : float64) : on_side false x -> status_of x <> "Green".
Proof.
  intros Hx. unfold status_of.
  assert (Hlt : flt x (float_of_int (-10)) = false).
  { destruct x as [s | s | | s m e]; try done; by simplify_eq. }
  rewrite Hlt. by destruct (flt (float_of_int 10) x).
Qed.

End Signs.

(** X15.  For a table with integer figures, held in [int64] columns, the
    status never contradicts the sign of the variance the script has computed.
    With a positive budget, a department whose Variance ($) is not above zero
    is never Red and one whose Variance ($) is not below zero is never Green,
    however the quotient is rounded.  With a negative budget the quotient
    changes sign and the two flags change places.  When actual - budget is
    within the range of an [int64], Variance ($) is that difference, and the
    same holds of the department that spent no more, or no less, than its
    budget. *)
Theorem status_agrees_with_the_side_of_the_budget (rows : list BudgetRow) :
  int64_figures rows ->
  exists out,
    analyze (VarianceAnalysis.frame_of_rows rows) = Return out
    /\ forall i row, rows !! i = Some row ->
         exists r,
           out !! i = Some r
           /\ ((0 < Budget row -> varianceAbsolute r <= 0 -> status r <> "Red")
               /\ (0 < Budget row -> 0 <= varianceAbsolute r -> status r <> "Green")
               /\ (Budget row < 0 -> varianceAbsolute r <= 0 -> status r <> "Green")
               /\ (Budget row < 0 -> 0 <= varianceAbsolute r -> status r <> "Red"))
           /\ (in_int64 (Actual row - Budget row) ->
               varianceAbsolute r = Actual row - Budget row
               /\ (0 < Budget row -> Actual row <= Budget row -> status r <> "Red")
               /\ (0 < Budget row -> Budget row <= Actual row -> status r <> "Green")
               /\ (Budget row < 0 -> Actual row <= Budget row -> status r <> "Green")
               /\ (Budget row < 0 -> Budget row <= Actual row -> status r <> "Red")).
Proof.
  intros _. eexists. split; [apply analyze_rows |].
  intros i row Hrow. exists (variance_of row).
  split; [by rewrite list_lookup_fmap, Hrow |].
  cbn [status varianceAbsolute].
  assert (Hside : forall s, Budget row <> 0 ->
            (difference_of row = 0
             \/ xorb (difference_of row <? 0)%Z (Budget row <? 0)%Z = s) ->
            on_side s (percent_of row)).
  { intros s Hb [Hzero | <-]; [| by apply percent_side].
    rewrite Hzero.
    destruct (float_of_int_sign (Budget row) Hb) as [(m & e & ->) | ->]; done. }
  assert (Hsigns :
            (0 < Budget row -> difference_of row <= 0 -> status_of (percent_of row) <> "Red")
            /\ (0 < Budget row -> 0 <= difference_of row ->
                status_of (percent_of row) <> "Green")
            /\ (Budget row < 0 -> difference_of row <= 0 ->
                status_of (percent_of row) <> "Green")
            /\ (Budget row < 0 -> 0 <= difference_of row ->
                status_of (percent_of row) <> "Red")).
  { split; [| split; [| split]]; intros Hb Hv.
    - apply not_red_on_negative_side, Hside; [lia |].
      destruct (decide (difference_of row = 0)) as [Hzero | Hne]; [by left | right].
      replace (Budget row <? 0)%Z with false by (symmetry; apply Z.ltb_ge; lia).
      rewrite xorb_false_r. apply Z.ltb_lt. lia.
    - apply not_green_on_positive_side, Hside; [lia | right].
      replace (Budget row <? 0)%Z with false by (symmetry; apply Z.ltb_ge; lia).
      rewrite xorb_false_r. apply Z.ltb_ge. lia.
    - apply not_green_on_positive_side, Hside; [lia |].
      destruct (decide (difference_of row = 0)) as [Hzero | Hne]; [by left | right].
      replace (Budget row <? 0)%Z with true by (symmetry; apply Z.ltb_lt; lia).
      rewrite xorb_true_r. apply negb_false_iff, Z.ltb_lt. lia.
    - apply not_red_on_negative_side, Hside; [lia | right].
      replace (Budget row <? 0)%Z with true by (symmetry; apply Z.ltb_lt; lia).
      rewrite xorb_true_r. apply negb_true_iff, Z.ltb_ge. lia. }
  split; [exact Hsigns |].
  intros Hfits.
  assert (Hexact : difference_of row = Actual row - Budget row)
    by (by apply wrap64_in_range).
  destruct Hsigns as (Hred & Hgreen & Hgreen' & Hred').
  split; [exact Hexact |].
  split; [| split; [| split]]; intros Hb Hab;
    [apply Hred | apply Hgreen | apply Hgreen' | apply Hred']; lia.
Qed.

Lemma status_agrees_with_the_side_of_the_budget_witness :
  exists out saved refunded,
    analyze (VarianceAnalysis.frame_of_rows
               [mkBudgetRow "Travel" 30 1000; mkBudgetRow "Rebates" 50 (-1000)])
    = Return out
    /\ out !! 0%nat = Some saved
    /\ out !! 1%nat = Some refunded
    /\ varianceAbsolute saved = -970
    /\ status saved <> "Red"
    /\ status refunded <> "Red".
Proof.
  destruct (status_agrees_with_the_side_of_the_budget
              [mkBudgetRow "Travel" 30 1000; mkBudgetRow "Rebates" 50 (-1000)])
    as (out & Hrun & Hrows); [all_fit_int64 |].
  destruct (Hrows 0%nat (mkBudgetRow "Travel" 30 1000) eq_refl)
    as (saved & Hsaved & _ & Hexact).
  destruct (Hrows 1%nat (mkBudgetRow "Rebates" 50 (-1000)) eq_refl)
    as (refunded & Hrefunded & _ & Hexact').
  destruct Hexact as (Hvariance & Hnot_red & _); [fits_int64 |].
  destruct Hexact' as (_ & _ & _ & _ & Hnot_red'); [fits_int64 |].
  exists out, saved, refunded.
  split; [exact Hrun |]. split; [exact Hsaved |]. split; [exact Hrefunded |].
  split; [exact Hvariance |].
  split; [apply Hnot_red | apply Hnot_red']; cbn; lia.
Defined.

(** X16.  A department exactly on a budget that is not zero has the
    percentage zero and the status Yellow; the zero carries the sign of the
    budget, so that the report shows 0.0% for a positive budget and -0.0% for a
    negative one. *)
Theorem on_budget_is_yellow (rows : list BudgetRow) :
  exists out,
    analyze (VarianceAnalysis.frame_of_rows rows) = Return out
    /\ forall i row, rows !! i = Some row ->
         Actual row = Budget row -> Budget row <> 0 ->
         exists r,
           out !! i = Some r
           /\ variancePercent r = S754_zero (Budget row <? 0)%Z
           /\ status r = "Yellow"
           /\ format_f false 1 (variancePercent r) ++ "%"
              = if (Budget row <? 0)%Z then "-0.0%" else "0.0%".
Proof.
  eexists. split; [apply analyze_rows |].
  intros i row Hrow Hab Hb. exists (variance_of row).
  split; [by rewrite list_lookup_fmap, Hrow |].
  cbn [variancePercent status].
  assert (Hzero : percent_of row = S754_zero (Budget row <? 0)%Z).
  { assert (H100 : exists m e, float_of_int 100 = S754_finite false m e)
      by (by do 2 eexists).
    destruct H100 as (m100 & e100 & ->).
    unfold int64_sub. rewrite Hab, Z.sub_diag.
    change (float_of_int (wrap64 0)) with (S754_zero false).
    destruct (float_of_int_sign (Budget row) Hb) as [(m & e & ->) | ->];
      cbn [fdiv fmul SFdiv SFmul xorb]; by rewrite xorb_false_r. }
  rewrite Hzero. split; [done |]. split; [done |].
  by destruct (Budget row <? 0)%Z.
Qed.

Lemma on_budget_is_yellow_witness :
  analyze (VarianceAnalysis.frame_of_rows
             [mkBudgetRow "HR" 20000 20000; mkBudgetRow "Rebates" (-500) (-500)])
  = Return [ mkVariance "HR" 20000 20000 0 (S754_zero false) "Yellow";
             mkVariance "Rebates" (-500) (-500) 0 (S754_zero true) "Yellow" ]
  /\ format_f false 1 (S754_zero true) ++ "%" = "-0.0%".
Proof.
  destruct (on_budget_is_yellow
              [mkBudgetRow "HR" 20000 20000; mkBudgetRow "Rebates" (-500) (-500)])
    as (out & Hrun & Hrows).
  destruct (Hrows 1%nat (mkBudgetRow "Rebates" (-500) (-500)) eq_refl eq_refl ltac:(done))
    as (r & _ & Hzero & _ & Hshown).
  rewrite Hzero in Hshown.
  split; [reflexivity | exact Hshown].
Defined.

(** X17.  The analysis works row by row: the rows it gives for two tables put
    together are the rows it gives for the first followed by those it gives
    for the second, and the report is the head followed by the lines of the
    first and the lines of the second. *)
Theorem analysis_of_joined_tables (rows1 rows2 : list BudgetRow) (out : stdout) :
  exists out1 out2,
    analyze (VarianceAnalysis.frame_of_rows rows1) = Return out1
    /\ analyze (VarianceAnalysis.frame_of_rows rows2) = Return out2
    /\ analyze (VarianceAnalysis.frame_of_rows (rows1 ++ rows2)) = Return (out1 ++ out2)%list
    /\ VarianceAnalysis.main (VarianceAnalysis.frame_of_rows (rows1 ++ rows2)) out
       = (Return tt,
          out ++ report_head ++ (row_text <$> out1) ++ (row_text <$> out2))%list.
Proof.
  exists ((fun row => variance_of row) <$> rows1), ((fun row => variance_of row) <$> rows2).
  rewrite variance_main_rows, !analyze_rows.
  split; [reflexivity |]. split; [reflexivity |].
  by rewrite !fmap_app.
Qed.

(** X18.  A negative figure of the variance report is printed with the minus
    sign after the dollar sign, as in $-5,000: the format writes the sign of
    the number, and the dollar sign is put in front of the formatted
    number. *)
Theorem negative_figure_is_dollar_minus (z : Z) :
  z < 0 ->
  exists rest,
    "$" ++ format_int_f true 0 z = "$-" ++ rest
    /\ (rest = "inf"
        \/ exists m e,
             float_of_int z = S754_finite true m e
             /\ rest = fixed_point true 0 (scaled_magnitude 0 m e)).
Proof.
  intros Hz. unfold format_int_f.
  destruct (float_of_int_sign z ltac:(lia)) as [(m & e & Hfloat) | Hfloat];
    rewrite Hfloat; replace (z <? 0)%Z with true by (symmetry; apply Z.ltb_lt; lia).
  - eexists. split; [reflexivity |]. right. by exists m, e.
  - exists "inf". split; [reflexivity | by left].
Qed.

Lemma negative_figure_is_dollar_minus_witness :
  "$" ++ format_int_f true 0 (-5000) = "$-5,000".
Proof.
  destruct (negative_figure_is_dollar_minus (-5000) ltac:(lia)) as (rest & Hshown & _).
  reflexivity.
Defined.

(* ===================================================================== *)
(** * A budget of zero                                                    *)
(* ===================================================================== *)

Section ZeroBudget.

Implicit Types (df : DataFrame) (a b d : Series).

Lemma to_floats_length (s : Series) (xs : list float64) :
  to_floats s = Return xs -> length xs = series_len s.
Proof. destruct s; cbn; intros [= <-]; by rewrite ?length_fmap. Qed.

(** The difference of two numeric columns is a numeric column, as long as the
    shorter of the two. *)
Lemma series_sub_numeric a b (xs ys : list float64) :
  to_floats a = Return xs ->
  to_floats b = Return ys ->
  length xs = length ys ->
  exists d ds,
    series_sub a b = Return d
    /\ to_floats d = Return ds
    /\ series_len d = length ys
    /\ length ds = length ys.
Proof.
  intros Ha Hb Hlen.
  pose proof (to_floats_length a xs Ha) as Hxs.
  pose proof (to_floats_length b ys Hb) as Hys.
  destruct a as [l | x | x], b as [l' | y | y]; try discriminate Ha; try discriminate Hb;
    cbn in Ha, Hb, Hxs, Hys; simplify_eq; cbn [series_sub to_floats mbind result_bind];
    do 2 eexists; (split; [reflexivity |]); (split; [reflexivity |]);
    cbn [series_len]; rewrite ?length_fmap, !length_zip_with, ?length_fmap in *; lia.
Qed.

(** A quotient by a zero, a hundred times: not-a-number or an infinity. *)
Lemma percent_of_quotient_by_zero (x : float64) (s : bool) :
  let p := fmul (fdiv x (S754_zero s)) (float_of_int 100) in
  p = S754_nan \/ p = S754_infinity false \/ p = S754_infinity true.
Proof.
  assert (H100 : exists m e, float_of_int 100 = S754_finite false m e)
    by (by do 2 eexists).
  destruct H100 as (m100 & e100 & ->).
  destruct x as [sx | sx | | sx m e], s; try destruct sx; cbn; auto.
Qed.

End ZeroBudget.

(** C2, counterexample.  A department that spent 5000 against a budget of 0
    has the percentage +infinity and the status Red: it is not so that every
    row with budget 0 has the status Yellow. *)
Lemma zero_budget_overrun_is_red :
  analyze (VarianceAnalysis.frame_of_rows [mkBudgetRow "Legal" 5000 0])
  = Return [mkVariance "Legal" 5000 0 5000 (S754_infinity false) "Red"]
  /\ ~ (forall row r,
          Budget row = 0 ->
          analyze (VarianceAnalysis.frame_of_rows [row]) = Return [r] ->
          status r = "Yellow").
Proof.
  assert (Hrun : analyze (VarianceAnalysis.frame_of_rows [mkBudgetRow "Legal" 5000 0])
                 = Return [mkVariance "Legal" 5000 0 5000 (S754_infinity false) "Red"])
    by reflexivity.
  split; [exact Hrun |].
  intros Hyellow.
  specialize (Hyellow (mkBudgetRow "Legal" 5000 0) _ eq_refl Hrun). discriminate Hyellow.
Qed.

(** C2, amended.  A budget of zero raises no exception.  On a frame whose
    Actual and Budget columns are numeric ([int64] or binary64) the three
    assignments run to their end, and at every row where the budget is a zero
    the percentage is the binary64 quotient by zero, a hundred times, with the
    status the thresholds give it: not-a-number and Yellow, +infinity and Red,
    or -infinity and Green.  For a table with integer figures, held in [int64]
    columns, the analysis and the report run to their end, and the row has
    not-a-number and Yellow when actual = 0, +infinity and Red when actual > 0,
    -infinity and Green when actual < 0. *)
Theorem zero_budget_gives_infinity_or_nan :
  (forall (df : DataFrame) (a b : Series) (actuals budgets : list float64),
     wf df ->
     columns df !! "Actual" = Some a ->
     columns df !! "Budget" = Some b ->
     to_floats a = Return actuals ->
     to_floats b = Return budgets ->
     exists finished percents,
       calculate df = Return finished
       /\ columns finished !! "Variance (%)" = Some (ColFloat percents)
       /\ columns finished !! "Status" = Some (ColStr (status_of <$> percents))
       /\ forall i s, budgets !! i = Some (S754_zero s) ->
            exists p,
              percents !! i = Some p
              /\ (p = S754_nan /\ status_of p = "Yellow"
                  \/ p = S754_infinity false /\ status_of p = "Red"
                  \/ p = S754_infinity true /\ status_of p = "Green"))
  /\ (forall rows : list BudgetRow,
        int64_figures rows ->
        exists out,
          analyze (VarianceAnalysis.frame_of_rows rows) = Return out
          /\ (forall printed_before, exists lines,
                VarianceAnalysis.main (VarianceAnalysis.frame_of_rows rows) printed_before
                = (Return tt, printed_before ++ lines)%list)
          /\ forall i row, rows !! i = Some row -> Budget row = 0 ->
               exists r,
                 out !! i = Some r
                 /\ (Actual row = 0 -> variancePercent r = S754_nan /\ status r = "Yellow")
                 /\ (0 < Actual row ->
                     variancePercent r = S754_infinity false /\ status r = "Red")
                 /\ (Actual row < 0 ->
                     variancePercent r = S754_infinity true /\ status r = "Green")).
Proof.
  split.
  - intros df a b actuals budgets Hwf Ha Hb Hactuals Hbudgets.
    assert (Hla : length actuals = nrows df)
      by (rewrite (to_floats_length a) by done; by apply (Hwf "Actual")).
    assert (Hlb : length budgets = nrows df)
      by (rewrite (to_floats_length b) by done; by apply (Hwf "Budget")).
    destruct (series_sub_numeric a b actuals budgets Hactuals Hbudgets ltac:(congruence))
      as (d & ds & Hd & Hds & Hld & Hlds).
    set (percents := (fun x => fmul x (float_of_int 100)) <$> zip_with fdiv ds budgets).
    assert (Hq : series_truediv d b = Return (ColFloat (zip_with fdiv ds budgets)))
      by (unfold series_truediv; by rewrite Hds, Hbudgets).
    assert (Hlp : length percents = nrows df)
      by (unfold percents; rewrite length_fmap, length_zip_with; lia).
    exists (mkDataFrame (nrows df)
              (<["Status" := ColStr (status_of <$> percents)]>
               (<["Variance (%)" := ColFloat percents]>
                (<["Variance ($)" := d]> (columns df))))), percents.
    split; [| split; [| split]].
    + apply (calculate_runs df a b d (ColFloat (zip_with fdiv ds budgets))
               (ColStr (status_of <$> percents))); try done.
      * congruence.
      * cbn [series_len]. by rewrite length_fmap.
    + cbn [columns]. rewrite lookup_insert_ne by done. apply lookup_insert_eq.
    + cbn [columns]. apply lookup_insert_eq.
    + intros i s Hzero.
      assert (Hx : is_Some (ds !! i)).
      { apply lookup_lt_is_Some. rewrite Hlds. by apply lookup_lt_Some in Hzero. }
      destruct Hx as [x Hx].
      exists (fmul (fdiv x (S754_zero s)) (float_of_int 100)). split.
      * unfold percents. rewrite list_lookup_fmap, lookup_zip_with, Hx.
        cbn [mbind option_bind]. unfold float64 in *. rewrite Hzero. reflexivity.
      * destruct (percent_of_quotient_by_zero x s) as [-> | [-> | ->]]; auto.
  - intros rows Hfit. eexists. split; [apply analyze_rows |]. split.
    + intros printed_before. eexists. apply variance_main_rows.
    + intros i row Hrow Hzero. exists (variance_of row).
      split; [by rewrite list_lookup_fmap, Hrow |].
      cbn [variancePercent status].
      destruct (proj1 (Forall_lookup _ _) Hfit i row Hrow) as [Hactual _].
      unfold int64_sub.
      rewrite Hzero, Z.sub_0_r, (wrap64_in_range _ Hactual), fdiv_by_zero.
      clear Hactual.
      split; [| split]; intros Hactual.
      * rewrite decide_True by done. split; reflexivity.
      * rewrite decide_False by lia.
        replace (Actual row <? 0)%Z with false by (symmetry; apply Z.ltb_ge; lia).
        split; reflexivity.
      * rewrite decide_False by lia.
        replace (Actual row <? 0)%Z with true by (symmetry; apply Z.ltb_lt; lia).
        split; reflexivity.
Qed.

(** An overrun, an unused and a refunded zero budget, and their report; and
    an overrun of a budget of -0.0 in a float column, which is Green. *)
Lemma zero_budget_gives_infinity_or_nan_witness :
  let rows := [ mkBudgetRow "Legal" 5000 0;
                mkBudgetRow "Archive" 0 0;
                mkBudgetRow "Refunds" (-700) 0 ] in
  let float_budget :=
    mkDataFrame 1 (<["Budget" := ColFloat [S754_zero true]]>
                   (<["Actual" := ColInt [5000]]>
                    (<["Department" := ColStr ["Legal"]]> ∅))) in
  analyze (VarianceAnalysis.frame_of_rows rows)
  = Return
      [ mkVariance "Legal" 5000 0 5000 (S754_infinity false) "Red";
        mkVariance "Archive" 0 0 0 S754_nan "Yellow";
        mkVariance "Refunds" (-700) 0 (-700) (S754_infinity true) "Green" ]
  /\ printed (VarianceAnalysis.main (VarianceAnalysis.frame_of_rows rows))
     = [ "Variance Analysis Report";
         "============================================================";
         "Department          Actual     Budget    Var ($)    Var (%)   Status";
         "------------------------------------------------------------";
         "Legal           $5,000         $0     $5,000       inf%      Red";
         "Archive         $0         $0         $0       nan%   Yellow";
         "Refunds         $-700         $0      $-700      -inf%    Green" ]
  /\ exists finished,
       calculate float_budget = Return finished
       /\ columns finished !! "Variance (%)" = Some (ColFloat [S754_infinity true])
       /\ columns finished !! "Status" = Some (ColStr ["Green"]).
Proof.
  intros rows float_budget.
  destruct zero_budget_gives_infinity_or_nan as [Hframes Hrows].
  destruct (Hrows rows) as (out & Hout & Hruns & Hzero); [all_fit_int64 |].
  split; [| split].
  - destruct (Hzero 0%nat (mkBudgetRow "Legal" 5000 0) eq_refl eq_refl)
      as (r0 & Hr0 & _ & Hpos & _).
    destruct (Hpos ltac:(reflexivity)) as [Hpct Hstatus].
    reflexivity.
  - reflexivity.
  - destruct (Hframes float_budget (ColInt [5000]) (ColFloat [S754_zero true])
                [float_of_int 5000] [S754_zero true])
      as (finished & percents & Hrun & Hpercent & Hstatus & _); try reflexivity.
    { intros c s. unfold float_budget. cbn [columns nrows]. intros Hc.
      repeat (apply lookup_insert_Some in Hc as [[_ <-] | [_ Hc]]; [done |]).
      by rewrite lookup_empty in Hc. }
    exists finished. split; [exact Hrun |].
    assert (Hfinished : Return finished
                        = Return (mkDataFrame 1
                                    (<["Status" := ColStr ["Green"]]>
                                     (<["Variance (%)" := ColFloat [S754_infinity true]]>
                                      (<["Variance ($)" := ColFloat [float_of_int 5000]]>
                                       (columns float_budget))))))
      by (rewrite <- Hrun; reflexivity).
    injection Hfinished as ->. split; reflexivity.
Defined.
